(** * Controle INSS: the ledger, its derived view and the advice request

    A shallow embedding of the TypeScript sources ([types.ts], [App.tsx],
    [services/geminiService.ts], [services/supabaseClient.ts]) and the
    properties of the balance computation, of the three mutations of the
    transaction list and of the advice request.

    JavaScript's [number] is IEEE 754 binary64.  The definitions are written
    once, over an interface [Number] holding exactly the operations the
    sources apply to numbers ([0], [+], [-], [<=], [===]); the interface has
    two instances: [float_Number], the kernel's binary64 floats, which is what
    the program runs on, and [Z_Number], exact integer arithmetic (amounts
    counted in cents), which is what the word "decimal" of the data model
    suggests.  What the sources take from the JavaScript run time
    ([parseFloat], [Date], [toFixed], [crypto.randomUUID], the two remote
    services) enters the definitions as a parameter; one concrete instance of
    each of the first three is given for the examples. *)

From Stdlib Require Import ZArith List String Ascii Bool Lia.
From Stdlib Require Import Permutation Sorted.
From Stdlib Require Import Floats Uint63 DecimalString.
Import ListNotations.

#[local] Set Warnings "-inexact-float".
Local Open Scope string_scope.
Local Open Scope Z_scope.

(** ** Numbers *)

Class Number (num : Type) : Type := {
  zero : num;
  add : num -> num -> num;
  sub : num -> num -> num;
  leb : num -> num -> bool;
  eqb : num -> num -> bool
}.

(** Binary64, as the program has it: [leb] and [eqb] are the IEEE comparisons
    [<=] and [===], false as soon as one side is NaN. *)
#[export] Instance float_Number : Number float := {
  zero := PrimFloat.zero;
  add := PrimFloat.add;
  sub := PrimFloat.sub;
  leb := PrimFloat.leb;
  eqb := PrimFloat.eqb
}.

(** Exact arithmetic. *)
#[export] Instance Z_Number : Number Z := {
  zero := 0;
  add := Z.add;
  sub := Z.sub;
  leb := Z.leb;
  eqb := Z.eqb
}.

(** ** types.ts *)

Module Types.

Inductive TransactionType : Set := INCOME | EXPENSE.

Definition TransactionType_eqb (a b : TransactionType) : bool :=
  match a, b with
  | INCOME, INCOME | EXPENSE, EXPENSE => true
  | _, _ => false
  end.

Record Transaction (num : Type) : Type := mkTransaction {
  id : string;
  date : string;
  description : string;
  amount : num;
  type : TransactionType;
  runningBalance : option num
}.

Record Summary (num : Type) : Type := mkSummary {
  initialBalance : num;
  totalIncome : num;
  totalExpenses : num;
  finalBalance : num
}.

Arguments mkTransaction {num}.
Arguments id {num}.
Arguments date {num}.
Arguments description {num}.
Arguments amount {num}.
Arguments type {num}.
Arguments runningBalance {num}.
Arguments mkSummary {num}.
Arguments initialBalance {num}.
Arguments totalIncome {num}.
Arguments totalExpenses {num}.
Arguments finalBalance {num}.

End Types.


(** ** The JavaScript run time *)

(** A number in a boolean position ([x || 0]): [0], [-0] and [NaN] are falsy. *)
Definition truthy_number {num} `{Number num} (x : num) : bool :=
  eqb x x && negb (eqb x zero).

(** A string in a boolean position: only the empty string is falsy. *)
Definition truthy_string (s : string) : bool :=
  negb (s =? "")%string.

(** [string | null | undefined] in a boolean position. *)
Definition truthy_opt_string (o : option string) : bool :=
  match o with
  | Some s => truthy_string s
  | None => false
  end.

(** How a statement or an awaited promise completes. *)
Inductive Completion (A : Type) : Type :=
  | Normal (a : A)
  | Throw (e : string).

Arguments Normal {A}.
Arguments Throw {A}.

Definition bind {A B} (c : Completion A) (k : A -> Completion B) : Completion B :=
  match c with
  | Normal a => k a
  | Throw e => Throw e
  end.

Definition try_catch {A} (body : Completion A) (handler : string -> Completion A)
  : Completion A :=
  match body with
  | Normal a => Normal a
  | Throw e => handler e
  end.

Notation "x <- c ;; k" := (bind c (fun x => k))
  (at level 61, c at next level, right associativity).

Section Arrays.
Context {A : Type}.

(** [Array.prototype.slice(-n)]: the start index is [max (length - n) 0]. *)
Definition slice_last (n : nat) (l : list A) : list A :=
  skipn (List.length l - n) l.

(** [Array.prototype.sort(comparefn)].  The comparator returns a number,
    [None] standing for NaN, which the sort reads as [+0].  ECMAScript
    requires the sort to be stable; for a comparator that is a consistent
    order the result is then determined (see [stable_sort_unique] below), and
    it is computed here by a stable insertion sort. *)
Variable comparefn : A -> A -> option Z.

Definition SortCompare (x y : A) : Z :=
  match comparefn x y with
  | Some v => v
  | None => 0
  end.

Fixpoint insert (x : A) (l : list A) : list A :=
  match l with
  | [] => [x]
  | y :: l' => if SortCompare x y <=? 0 then x :: y :: l' else y :: insert x l'
  end.

Definition Array_sort (l : list A) : list A :=
  fold_right insert [] l.
End Arrays.

(** [Array.prototype.join(sep)] on strings. *)
Fixpoint join (sep : string) (l : list string) : string :=
  match l with
  | [] => ""
  | [s] => s
  | s :: l' => s ++ sep ++ join sep l'
  end.

(** One concrete [Date]: [new Date(s).getTime()] for the date-only form
    [YYYY-MM-DD] that an [<input type="date">] produces, which ECMAScript reads
    as midnight UTC; the result is in milliseconds since the epoch, [None] is
    the NaN of an invalid date.  Only this form is covered: every other string
    is given [None]. *)
Module IsoDate.

Definition digit (c : ascii) : option Z :=
  let n := Z.of_nat (nat_of_ascii c) in
  if (48 <=? n) && (n <=? 57) then Some (n - 48) else None.

Fixpoint number (s : list ascii) (acc : Z) : option Z :=
  match s with
  | [] => Some acc
  | c :: s' =>
      match digit c with
      | Some d => number s' (10 * acc + d)
      | None => None
      end
  end.

Definition is_leap (y : Z) : bool :=
  ((y mod 4 =? 0) && negb (y mod 100 =? 0)) || (y mod 400 =? 0).

Definition days_in_month (y m : Z) : Z :=
  if m =? 2 then (if is_leap y then 29 else 28)
  else if (m =? 4) || (m =? 6) || (m =? 9) || (m =? 11) then 30
  else 31.

(** Days from 1970-01-01 to the civil date [y-m-d]. *)
Definition days_from_civil (y m d : Z) : Z :=
  let y' := if m <=? 2 then y - 1 else y in
  let era := y' / 400 in
  let yoe := y' - era * 400 in
  let mp := if m <=? 2 then m + 9 else m - 3 in
  let doy := (153 * mp + 2) / 5 + d - 1 in
  let doe := yoe * 365 + yoe / 4 - yoe / 100 + doy in
  era * 146097 + doe - 719468.

Definition getTime (s : string) : option Z :=
  match list_ascii_of_string s with
  | [y1; y2; y3; y4; "-"%char; m1; m2; "-"%char; d1; d2] =>
      match number [y1; y2; y3; y4] 0, number [m1; m2] 0, number [d1; d2] 0 with
      | Some y, Some m, Some d =>
          if (1 <=? m) && (m <=? 12) && (1 <=? d) && (d <=? days_in_month y m)
          then Some (days_from_civil y m d * 86400000)
          else None
      | _, _, _ => None
      end
  | _ => None
  end.

End IsoDate.

(** One concrete [parseFloat] on binary64, for plain decimal literals:
    optional leading blanks, an optional sign, digits, an optional fraction;
    what follows is ignored, as [parseFloat] does.  The digits are read as one
    integer [m] and the result is the float quotient [m / 10^k]; both are
    exact, and the quotient correctly rounded, as long as [m < 2^53] and
    [k <= 18], which is the range this model is meant for.  A string with no
    digit gives NaN.  An exponent part and [Infinity] are not read. *)
Module DecimalLiteral.

Fixpoint skip_blanks (s : list ascii) : list ascii :=
  match s with
  | c :: s' => if (c =? " ")%char then skip_blanks s' else s
  | [] => []
  end.

(** The longest prefix of digits: its value, its length, and what follows. *)
Fixpoint digits (s : list ascii) (acc : Z) (n : nat) : Z * nat * list ascii :=
  match s with
  | c :: s' =>
      match IsoDate.digit c with
      | Some d => digits s' (10 * acc + d) (S n)
      | None => (acc, n, s)
      end
  | [] => (acc, n, [])
  end.

Definition of_Z (z : Z) : float :=
  PrimFloat.of_uint63 (Uint63.of_Z z).

Definition unsigned (s : list ascii) : float :=
  let '(i, ni, rest) := digits s 0 0 in
  match rest with
  | "."%char :: rest' =>
      let '(m, nf, _) := digits rest' i 0 in
      if (ni + nf =? 0)%nat then PrimFloat.nan
      else PrimFloat.div (of_Z m) (of_Z (10 ^ Z.of_nat nf))
  | _ => if (ni =? 0)%nat then PrimFloat.nan else of_Z i
  end.

Definition parseFloat (s : string) : float :=
  match skip_blanks (list_ascii_of_string s) with
  | "-"%char :: s' => PrimFloat.opp (unsigned s')
  | "+"%char :: s' => unsigned s'
  | s' => unsigned s'
  end.

End DecimalLiteral.

(** One concrete [Number.prototype.toFixed] on binary64, as ECMAScript defines
    it for a value below [10^21] in magnitude: the sign is ["-"] when
    [x < 0]; [n] is the integer that makes [n / 10^digits] closest to the
    exact value of [|x|], the larger one of two; the digits of [n] are padded
    to [digits + 1] and the point is put before the last [digits].  (From
    [10^21] on, ECMAScript switches to the exponent form, which is not
    modelled.) *)
Module Fixed.

Definition digits_of (n : Z) : string :=
  NilZero.string_of_uint (N.to_uint (Z.to_N n)).

Fixpoint zeros (k : nat) : string :=
  match k with
  | O => ""
  | S k' => "0" ++ zeros k'
  end.

Definition point (n : Z) (digits : nat) : string :=
  let m := digits_of n in
  let m := zeros (S digits - String.length m) ++ m in
  let k := (String.length m - digits)%nat in
  if (digits =? 0)%nat then m
  else substring 0 k m ++ "." ++ substring k digits m.

(** The integer nearest to [m * 2^e * 10^digits], halves upwards. *)
Definition scaled (m : positive) (e : Z) (digits : nat) : Z :=
  let num := Z.pos m * 10 ^ Z.of_nat digits in
  if 0 <=? e then num * 2 ^ e
  else (2 * num + 2 ^ (- e)) / (2 * 2 ^ (- e)).

Definition toFixed (x : float) (digits : nat) : string :=
  match Prim2SF x with
  | S754_nan => "NaN"
  | S754_infinity s => if s then "-Infinity" else "Infinity"
  | S754_zero _ => point 0 digits
  | S754_finite s m e => (if s then "-" else "") ++ point (scaled m e digits) digits
  end.

End Fixed.

(** ** services/supabaseClient.ts *)

Module SupabaseClient.

(** [url.startsWith('http')]. *)
Definition isValidUrl (url : string) : bool :=
  String.prefix "http" url.

(** [process.env.X || ''] *)
Definition env_or_empty (v : option string) : string :=
  match v with
  | Some s => s
  | None => ""
  end.

Definition isSupabaseConfigured (SUPABASE_URL SUPABASE_ANON_KEY : option string) : bool :=
  isValidUrl (env_or_empty SUPABASE_URL)
  && truthy_string (env_or_empty SUPABASE_ANON_KEY).

(** The earlier revision: [!!(supabaseUrl && supabaseAnonKey)]. *)
Definition isSupabaseConfigured_v1 (SUPABASE_URL SUPABASE_ANON_KEY : option string) : bool :=
  truthy_string (env_or_empty SUPABASE_URL)
  && truthy_string (env_or_empty SUPABASE_ANON_KEY).

End SupabaseClient.

(** ** services/geminiService.ts *)

Module GeminiService.
Import Types.

Definition nl : string := String (ascii_of_nat 10) "".

Definition no_transactions_text : string :=
  "Adicione lançamentos para receber insights financeiros.".
Definition no_key_text : string :=
  "Configuração de IA pendente. Adicione a API_KEY nas variáveis de ambiente.".
Definition no_text_text : string :=
  "Não foi possível gerar um conselho no momento.".
Definition failure_text : string :=
  "A IA está descansando agora. Tente novamente em breve.".
Definition failure_text_v1 : string :=
  "Erro ao obter insights da IA.".

Section Service.
Context {num : Type}.

(** [Number.prototype.toFixed]. *)
Variable toFixed : num -> nat -> string.

(** [process.env.API_KEY]. *)
Variable API_KEY : option string.

(** The remote endpoint: [new GoogleGenAI({ apiKey })], then
    [ai.models.generateContent({ model, contents })] awaited, then
    [response.text]; any of them may throw, and the text may be undefined. *)
Variable generateContent : string -> string -> string -> Completion (option string).

Definition recent_line (t : Transaction num) : string :=
  "- " ++ date t ++ ": " ++ description t
  ++ " (R$ " ++ toFixed (amount t) 2 ++ " - "
  ++ (if TransactionType_eqb (type t) INCOME then "Entrada" else "Saída") ++ ")".

Definition summary_lines (summary : Summary num) : string :=
  "        - Saldo Inicial: R$ " ++ toFixed (initialBalance summary) 2 ++ nl
  ++ "        - Total de Entradas: R$ " ++ toFixed (totalIncome summary) 2 ++ nl
  ++ "        - Total de Saídas: R$ " ++ toFixed (totalExpenses summary) 2 ++ nl
  ++ "        - Saldo Final: R$ " ++ toFixed (finalBalance summary) 2 ++ nl.

(** The [contents] template of the request. *)
Definition contents (transactions : list (Transaction num)) (summary : Summary num)
  : string :=
  nl
  ++ "        Atue como um especialista financeiro para aposentados e pensionistas do INSS brasileiros. " ++ nl
  ++ "        Analise o seguinte resumo financeiro em Reais (R$):" ++ nl
  ++ summary_lines summary
  ++ "        " ++ nl
  ++ "        Transações recentes:" ++ nl
  ++ "        " ++ join nl (map recent_line (slice_last 5 transactions)) ++ nl
  ++ nl
  ++ "        Dê um conselho curto (máximo 3 frases) e motivador em português." ++ nl
  ++ "      ".

Definition model : string := "gemini-3-flash-preview".

(** [response.text || "..."]. *)
Definition text_or (text : option string) (fallback : string) : string :=
  match text with
  | Some s => if truthy_string s then s else fallback
  | None => fallback
  end.

Definition getFinancialAdvice
  (transactions : list (Transaction num)) (summary : Summary num)
  : Completion string :=
  if (List.length transactions =? 0)%nat then Normal no_transactions_text
  else
    match API_KEY with
    | None => Normal no_key_text
    | Some apiKey =>
        if negb (truthy_string apiKey) then Normal no_key_text
        else
          try_catch
            (text <- generateContent apiKey model (contents transactions summary) ;;
             Normal (text_or text no_text_text))
            (fun error => Normal failure_text)
    end.

(** The earlier revision of the service: the client is built once with
    [process.env.API_KEY || ""], there is no test of the key, and the
    transaction type is printed as it is. *)
Definition type_name (ty : TransactionType) : string :=
  match ty with
  | INCOME => "INCOME"
  | EXPENSE => "EXPENSE"
  end.

Definition recent_line_v1 (t : Transaction num) : string :=
  "- " ++ date t ++ ": " ++ description t
  ++ " (R$ " ++ toFixed (amount t) 2 ++ " - " ++ type_name (type t) ++ ")".

Definition contents_v1 (transactions : list (Transaction num)) (summary : Summary num)
  : string :=
  nl
  ++ "        Atue como um especialista financeiro para aposentados e pensionistas do INSS. " ++ nl
  ++ "        Analise o seguinte resumo financeiro:" ++ nl
  ++ summary_lines summary
  ++ "        " ++ nl
  ++ "        Transações recentes:" ++ nl
  ++ "        " ++ join nl (map recent_line_v1 (slice_last 5 transactions)) ++ nl
  ++ nl
  ++ "        Dê um conselho curto (máximo 3 frases) e motivador sobre a saúde financeira deste usuário." ++ nl
  ++ "      ".

Definition getFinancialAdvice_v1
  (transactions : list (Transaction num)) (summary : Summary num)
  : Completion string :=
  if (List.length transactions =? 0)%nat then Normal no_transactions_text
  else
    try_catch
      (text <- generateContent (SupabaseClient.env_or_empty API_KEY) model
                 (contents_v1 transactions summary) ;;
       Normal (text_or text no_text_text))
      (fun error => Normal failure_text_v1).
End Service.

End GeminiService.

(** ** App.tsx *)

Module App.

(** What a handler shows besides the new state. *)
Inductive Effect : Set :=
  | console_warn (msg : string)
  | console_error (msg : string)
  | alert (msg : string).

(** The component's state, one field per [useState]. *)
Record State (num : Type) : Type := mkState {
  initialBalance : num;
  transactions : list (Types.Transaction num);
  description : string;
  amount : string;
  date : string;
  type : Types.TransactionType;
  aiAdvice : string;
  loadingAdvice : bool;
  isLoading : bool;
  editingId : option string;
  editForm : option (Types.Transaction num)
}.

Arguments mkState {num}.
Arguments initialBalance {num}.
Arguments transactions {num}.
Arguments description {num}.
Arguments amount {num}.
Arguments date {num}.
Arguments type {num}.
Arguments aiAdvice {num}.
Arguments loadingAdvice {num}.
Arguments isLoading {num}.
Arguments editingId {num}.
Arguments editForm {num}.

Section Component.
Context {num : Type} `{Number num}.

(** The global [parseFloat] and [new Date(s).getTime()], with [None] for
    the NaN of an invalid date. *)
Variable parseFloat : string -> num.
Variable getTime : string -> option Z.

(** [isSupabaseConfigured && supabase]: the client is non-null exactly when
    it is configured.  The two earlier revisions of the component have no
    remote store; they are this one with [isSupabaseConfigured = false]. *)
Variable isSupabaseConfigured : bool.

#[local] Abbreviation Transaction := (Types.Transaction num).
#[local] Abbreviation State := (State num).

(** *** The setters of [useState] *)

Definition setInitialBalance (v : num) (s : State) : State :=
  mkState v (transactions s) (description s) (amount s) (date s) (type s)
    (aiAdvice s) (loadingAdvice s) (isLoading s) (editingId s) (editForm s).

Definition setTransactions (v : list Transaction) (s : State) : State :=
  mkState (initialBalance s) v (description s) (amount s) (date s) (type s)
    (aiAdvice s) (loadingAdvice s) (isLoading s) (editingId s) (editForm s).

Definition setDescription (v : string) (s : State) : State :=
  mkState (initialBalance s) (transactions s) v (amount s) (date s) (type s)
    (aiAdvice s) (loadingAdvice s) (isLoading s) (editingId s) (editForm s).

Definition setAmount (v : string) (s : State) : State :=
  mkState (initialBalance s) (transactions s) (description s) v (date s) (type s)
    (aiAdvice s) (loadingAdvice s) (isLoading s) (editingId s) (editForm s).

Definition setDate (v : string) (s : State) : State :=
  mkState (initialBalance s) (transactions s) (description s) (amount s) v (type s)
    (aiAdvice s) (loadingAdvice s) (isLoading s) (editingId s) (editForm s).

Definition setType (v : Types.TransactionType) (s : State) : State :=
  mkState (initialBalance s) (transactions s) (description s) (amount s) (date s) v
    (aiAdvice s) (loadingAdvice s) (isLoading s) (editingId s) (editForm s).

Definition setEditingId (v : option string) (s : State) : State :=
  mkState (initialBalance s) (transactions s) (description s) (amount s) (date s)
    (type s) (aiAdvice s) (loadingAdvice s) (isLoading s) v (editForm s).

Definition setEditForm (v : option Transaction) (s : State) : State :=
  mkState (initialBalance s) (transactions s) (description s) (amount s) (date s)
    (type s) (aiAdvice s) (loadingAdvice s) (isLoading s) (editingId s) v.

Definition setAiAdvice (v : string) (s : State) : State :=
  mkState (initialBalance s) (transactions s) (description s) (amount s) (date s)
    (type s) v (loadingAdvice s) (isLoading s) (editingId s) (editForm s).

Definition setLoadingAdvice (v : bool) (s : State) : State :=
  mkState (initialBalance s) (transactions s) (description s) (amount s) (date s)
    (type s) (aiAdvice s) v (isLoading s) (editingId s) (editForm s).

(** *** The derived view *)

(** The comparator [(a, b) => new Date(a.date).getTime() - new Date(b.date).getTime()]:
    both times are integers of milliseconds and the sign of their binary64
    difference is the sign of the exact one; NaN as soon as one date is
    invalid. *)
Definition by_date (a b : Transaction) : option Z :=
  match getTime (Types.date a), getTime (Types.date b) with
  | Some ta, Some tb => Some (ta - tb)
  | _, _ => None
  end.

(** [t.type === 'INCOME' ? current + t.amount : current - t.amount] *)
Definition apply_transaction (current : num) (t : Transaction) : num :=
  if Types.TransactionType_eqb (Types.type t) Types.INCOME
  then add current (Types.amount t)
  else sub current (Types.amount t).

(** [{ ...t, runningBalance: current }] *)
Definition with_runningBalance (t : Transaction) (current : num) : Transaction :=
  Types.mkTransaction (Types.id t) (Types.date t) (Types.description t)
    (Types.amount t) (Types.type t) (Some current).

(** [sorted.map(t => { current = ...; return { ...t, runningBalance: current } })],
    the variable [current] threaded through the calls. *)
Fixpoint running (current : num) (sorted : list Transaction) : list Transaction :=
  match sorted with
  | [] => []
  | t :: rest =>
      let current := apply_transaction current t in
      with_runningBalance t current :: running current rest
  end.

Definition processedTransactions
  (transactions : list Transaction) (initialBalance : num) : list Transaction :=
  let sorted := Array_sort by_date transactions in
  let current := initialBalance in
  running current sorted.

(** *** The summary *)

Definition is_type (ty : Types.TransactionType) (t : Transaction) : bool :=
  Types.TransactionType_eqb (Types.type t) ty.

(** [.reduce((acc, t) => acc + t.amount, 0)] *)
Definition sum_amounts (l : list Transaction) : num :=
  fold_left (fun acc t => add acc (Types.amount t)) l zero.

Definition summary
  (transactions : list Transaction) (initialBalance : num) : Types.Summary num :=
  let totalIncome := sum_amounts (filter (is_type Types.INCOME) transactions) in
  let totalExpenses := sum_amounts (filter (is_type Types.EXPENSE) transactions) in
  Types.mkSummary initialBalance totalIncome totalExpenses
    (sub (add initialBalance totalIncome) totalExpenses).

(** *** The handlers *)

(** [handleAddTransaction]; [uuid] is what [crypto.randomUUID()] returns and
    [error] what the awaited remote insert answers, when it is called. *)
Definition handleAddTransaction (uuid : string) (error : bool) (s : State)
  : State * list Effect :=
  if negb (truthy_string (description s))
     || negb (truthy_string (amount s))
     || leb (parseFloat (amount s)) zero
  then (s, [])
  else
    let newTransaction :=
      Types.mkTransaction uuid (date s) (description s) (parseFloat (amount s))
        (type s) None in
    let effects :=
      if isSupabaseConfigured && error
      then [console_warn "Erro ao salvar no banco de dados. Mantendo apenas local."]
      else [] in
    (setAmount "" (setDescription ""
       (setTransactions (transactions s ++ [newTransaction])%list s)),
     effects).

Definition deleteTransaction (id : string) (error : bool) (s : State)
  : State * list Effect :=
  let effects :=
    if isSupabaseConfigured && error
    then [console_error "Erro ao deletar no Supabase"]
    else [] in
  (setTransactions
     (filter (fun t => negb (Types.id t =? id)%string) (transactions s)) s,
   effects).

Definition startEditing (transaction : Transaction) (s : State) : State :=
  setEditForm (Some transaction) (setEditingId (Some (Types.id transaction)) s).

Definition cancelEditing (s : State) : State :=
  setEditForm None (setEditingId None s).

(** [fetchAdvice], [advice] being the text [getFinancialAdvice] resolves to. *)
Definition fetchAdvice (advice : string) (s : State) : State :=
  setLoadingAdvice false (setAiAdvice advice (setLoadingAdvice true s)).

Definition saveEdit (error : bool) (s : State) : State * list Effect :=
  match editForm s, editingId s with
  | Some form, Some eid =>
      if negb (truthy_string eid) then (s, [])
      else if isSupabaseConfigured && error
      then (s, [alert "Erro ao atualizar no banco de dados."])
      else
        (setEditForm None (setEditingId None
           (setTransactions
              (map (fun t => if (Types.id t =? eid)%string then form else t)
                 (transactions s)) s)),
         [])
  | _, _ => (s, [])
  end.

(** *** The inputs of the edited row: [setEditForm(prev => prev ? {...prev, f: v} : null)] *)

Definition edit_date (v : string) (prev : Transaction) : Transaction :=
  Types.mkTransaction (Types.id prev) v (Types.description prev) (Types.amount prev)
    (Types.type prev) (Types.runningBalance prev).

Definition edit_description (v : string) (prev : Transaction) : Transaction :=
  Types.mkTransaction (Types.id prev) (Types.date prev) v (Types.amount prev)
    (Types.type prev) (Types.runningBalance prev).

Definition edit_type (v : Types.TransactionType) (prev : Transaction) : Transaction :=
  Types.mkTransaction (Types.id prev) (Types.date prev) (Types.description prev)
    (Types.amount prev) v (Types.runningBalance prev).

(** [parseFloat(e.target.value) || 0] *)
Definition number_or_zero (v : string) : num :=
  if truthy_number (parseFloat v) then parseFloat v else zero.

Definition edit_amount (v : string) (prev : Transaction) : Transaction :=
  Types.mkTransaction (Types.id prev) (Types.date prev) (Types.description prev)
    (number_or_zero v) (Types.type prev) (Types.runningBalance prev).

(** *** The component as a transition system *)

Inductive Action : Type :=
  | ChangeInitialBalance (v : string)
  | ChangeDescription (v : string)
  | ChangeAmount (v : string)
  | ChangeDate (v : string)
  | ChangeType (v : Types.TransactionType)
  | Submit (uuid : string) (error : bool)
  | Delete (id : string) (error : bool)
  | StartEditing (transaction : Transaction)
  | CancelEditing
  | EditDate (v : string)
  | EditDescription (v : string)
  | EditType (v : Types.TransactionType)
  | EditAmount (v : string)
  | SaveEdit (error : bool)
| FetchAdvice (advice : string).

Definition dispatch (a : Action) (s : State) : State * list Effect :=
  match a with
  | ChangeInitialBalance v => (setInitialBalance (number_or_zero v) s, [])
  | ChangeDescription v => (setDescription v s, [])
  | ChangeAmount v => (setAmount v s, [])
  | ChangeDate v => (setDate v s, [])
  | ChangeType v => (setType v s, [])
  | Submit uuid error => handleAddTransaction uuid error s
  | Delete id error => deleteTransaction id error s
  | StartEditing t => (startEditing t s, [])
  | CancelEditing => (cancelEditing s, [])
  | EditDate v => (setEditForm (option_map (edit_date v) (editForm s)) s, [])
  | EditDescription v => (setEditForm (option_map (edit_description v) (editForm s)) s, [])
  | EditType v => (setEditForm (option_map (edit_type v) (editForm s)) s, [])
  | EditAmount v => (setEditForm (option_map (edit_amount v) (editForm s)) s, [])
  | SaveEdit error => saveEdit error s
  | FetchAdvice advice => (fetchAdvice advice s, [])
  end.

(** [crypto.randomUUID()] returns an identifier no entry has yet: the one
    assumption on an action. *)
Definition fresh (a : Action) (s : State) : Prop :=
  match a with
  | Submit uuid _ => ~ In uuid (map Types.id (transactions s))
  | _ => True
  end.

(** The identifiers are pairwise distinct, and the row being edited carries
    the identifier it was opened with. *)
Definition distinct_ids (l : list Transaction) : Prop :=
  NoDup (map Types.id l).

Definition edit_consistent (s : State) : Prop :=
  match editForm s, editingId s with
  | Some form, Some eid => Types.id form = eid
  | _, _ => True
  end.

(** A session: the actions of the user one after the other. *)
Definition run (actions : list Action) (s : State) : State :=
  fold_left (fun s a => fst (dispatch a s)) actions s.

Inductive reachable (s0 : State) : State -> Prop :=
  | reachable_start : reachable s0 s0
  | reachable_step s a :
      reachable s0 s -> fresh a s -> reachable s0 (fst (dispatch a s)).

(** A handler reports a failure to its caller when it raises an alert; no
    handler throws. *)
Definition is_alert (e : Effect) : bool :=
  match e with
  | alert _ => true
  | _ => false
  end.

Definition reports_failure (r : State * list Effect) : bool :=
  existsb is_alert (snd r).

(** *** Loading *)

Definition setIsLoading (v : bool) (s : State) : State :=
  mkState (initialBalance s) (transactions s) (description s) (amount s) (date s)
    (type s) (aiAdvice s) (loadingAdvice s) v (editingId s) (editForm s).

(** [initial || 0] and [trans || []] on the fields of the parsed snapshot,
    [None] for a field that is missing or null. *)
Definition initial_or_zero (initial : option num) : num :=
  match initial with
  | Some v => if truthy_number v then v else zero
  | None => zero
  end.

Definition trans_or_empty (trans : option (list Transaction)) : list Transaction :=
  match trans with
  | Some l => l
  | None => []
  end.

(** [loadData].  [remote] is what the awaited select gives: [{ data, error }]
    or a throw; [saved] is what [localStorage.getItem] holds, [None] when it is
    null or empty, together with what [JSON.parse] and the destructuring of
    [{ initial, trans }] make of it. *)
Definition loadData
  (remote : Completion (option (list Transaction) * bool))
  (saved : option (Completion (option num * option (list Transaction))))
  (s : State) : State * list Effect :=
  let s := setIsLoading true s in
  let '(s, dataLoaded, effects) :=
    if isSupabaseConfigured then
      match remote with
      | Normal (Some trans, false) => (setTransactions trans s, true, [])
      | Normal _ => (s, false, [])
      | Throw e => (s, false, [console_error "Erro ao carregar do Supabase:"])
      end
    else (s, false, []) in
  let '(s, effects) :=
    if (dataLoaded : bool) then (s, effects)
    else
      match saved with
      | Some (Normal (initial, trans)) =>
          (setTransactions (trans_or_empty trans)
             (setInitialBalance (initial_or_zero initial) s),
           effects)
      | Some (Throw e) =>
          (s, (effects ++ [console_error "Falha ao carregar dados locais"])%list)
      | None => (s, effects)
      end in
  (setIsLoading false s, effects).

(** The actions that call [setTransactions]. *)
Definition mutates (a : Action) : bool :=
  match a with
  | Submit _ _ | Delete _ _ | SaveEdit _ => true
  | _ => false
  end.
End Component.

End App.

(** ** The vocabulary of the properties *)

(** Sorted by a key, and the elements that have a given key. *)
Definition key_le {A : Type} (key : A -> Z) (x y : A) : Prop :=
  key x <= key y.

Definition has_key {A : Type} (key : A -> Z) (k : Z) (x : A) : bool :=
  key x =? k.

(** The time of a transaction whose date is valid. *)
Definition time_of {num : Type} (getTime : string -> option Z)
  (t : Types.Transaction num) : Z :=
  match getTime (Types.date t) with
  | Some v => v
  | None => 0
  end.

Definition valid_date {num : Type} (getTime : string -> option Z)
  (t : Types.Transaction num) : Prop :=
  getTime (Types.date t) <> None.

(** The running balance attached to the last element of a view. *)
Definition last_runningBalance {num : Type} (view : list (Types.Transaction num))
  : option num :=
  match rev view with
  | t :: _ => Types.runningBalance t
  | [] => None
  end.

(** What an entry is, its running balance apart. *)
Definition entry_fields {num : Type} (t : Types.Transaction num)
  : string * string * string * num * Types.TransactionType :=
  (Types.id t, Types.date t, Types.description t, Types.amount t, Types.type t).

(** Two entries that count the same in the totals. *)
Definition same_money {num : Type} (t u : Types.Transaction num) : Prop :=
  Types.amount t = Types.amount u /\ Types.type t = Types.type u.

(** The inputs of the row being edited. *)
Definition is_edit {num : Type} (a : App.Action (num := num)) : bool :=
  match a with
  | App.EditDate _ | App.EditDescription _ | App.EditType _ | App.EditAmount _ => true
  | _ => false
  end.

(** Two binary64 values are different as soon as [===] tells them apart and
    the first is not NaN. *)
Definition float_differ (x y : float) : bool :=
  PrimFloat.eqb x x && negb (PrimFloat.eqb x y).

(** The ledgers of the examples. *)
Module Ledgers.
Import Types.

(** Example 1 of the specification. *)
Definition example1 : list (Transaction float) :=
  [ mkTransaction "t1" "2024-01-05" "Beneficio" 500%float INCOME None;
    mkTransaction "t2" "2024-01-01" "Farmacia" 200%float EXPENSE None ].

(** Incomes of a few cents. *)
Definition two_incomes : list (Transaction float) :=
  [ mkTransaction "a" "2024-01-01" "Venda" 0.2%float INCOME None;
    mkTransaction "b" "2024-01-02" "Venda" 0.3%float INCOME None ].

Definition three_incomes : list (Transaction float) :=
  [ mkTransaction "a" "2024-01-01" "Venda" 0.1%float INCOME None;
    mkTransaction "b" "2024-01-02" "Venda" 0.2%float INCOME None;
    mkTransaction "c" "2024-01-03" "Venda" 0.3%float INCOME None ].

(** The same amounts in cents, in exact arithmetic. *)
Definition cents : list (Transaction Z) :=
  [ mkTransaction "a" "2024-01-02" "Venda" 20 INCOME None;
    mkTransaction "b" "2024-01-01" "Conta" 30 EXPENSE None ].

(** Five entries, and the same five after an older one. *)
Definition five : list (Transaction float) :=
  (three_incomes ++ example1)%list.

Definition six : list (Transaction float) :=
  mkTransaction "old" "2023-12-01" "Gas" 90%float EXPENSE None :: five.

(** Three entries, the middle one with its date cleared in the edit row: it
    still carries the balance of the row it was opened from. *)
Definition cleared_date : list (Transaction float) :=
  [ mkTransaction "a" "2024-01-05" "Beneficio" 10%float INCOME None;
    mkTransaction "x" "" "Farmacia" 4%float EXPENSE (Some 2%float);
    mkTransaction "b" "2024-01-01" "Venda" 6%float INCOME None ].

End Ledgers.

(** The states of the examples, on binary64. *)
Module Scenarios.
Import Types.

(** The page once loaded, nothing saved. *)
Definition start : App.State float :=
  App.mkState 0%float [] "" "" "2024-01-01" INCOME "" false false None None.

(** A session that sets the starting balance to 0.1 and records incomes of
    0.2 and 0.3. *)
Definition session : list (App.Action (num := float)) :=
  [ App.ChangeInitialBalance "0.1";
    App.ChangeDescription "Venda"; App.ChangeAmount "0.2";
    App.ChangeDate "2024-01-01"; App.Submit "a" false;
    App.ChangeDescription "Venda"; App.ChangeAmount "0.3";
    App.ChangeDate "2024-01-02"; App.Submit "b" false ].

(** A form filled in but for its date, which is empty. *)
Definition no_date_form : App.State float :=
  App.mkState 0%float [] "Aluguel" "5" "" EXPENSE "" false false None None.

(** Example 3 of the specification: an amount of -5. *)
Definition negative_amount_form : App.State float :=
  App.mkState 0%float [] "Aluguel" "-5" "2024-01-10" EXPENSE "" false false None None.

(** The ledger of example 1 with the row of "t2" open and changed. *)
Definition edited_row : Transaction float :=
  mkTransaction "t2" "2024-01-01" "Mercado" 250%float EXPENSE (Some 800%float).

Definition editing : App.State float :=
  App.mkState 1000%float Ledgers.example1 "" "" "2024-01-10" INCOME "" false false
    (Some "t2") (Some edited_row).

(** The same ledger with an open row whose identifier no entry has. *)
Definition missing_row : Transaction float :=
  mkTransaction "zz" "2024-01-01" "Mercado" 250%float EXPENSE None.

Definition editing_missing : App.State float :=
  App.mkState 1000%float Ledgers.example1 "" "" "2024-01-10" INCOME "" false false
    (Some "zz") (Some missing_row).

(** The same ledger with the row of "t2" open and only renamed. *)
Definition renamed_row : Transaction float :=
  mkTransaction "t2" "2024-01-01" "Mercado" 200%float EXPENSE (Some 800%float).

Definition renaming : App.State float :=
  App.mkState 1000%float Ledgers.example1 "" "" "2024-01-10" INCOME "" false false
    (Some "t2") (Some renamed_row).

(** An endpoint that always answers the same text. *)
Definition answering (apiKey model contents : string) : Completion (option string) :=
  Normal (Some "Poupe um pouco todo mes.").

(** A session that records three entries, opens the row of the second one in
    the view, clears its date and saves. *)
Definition clearing_session : list (App.Action (num := float)) :=
  [ App.ChangeDescription "Beneficio"; App.ChangeAmount "10";
    App.ChangeDate "2024-01-05"; App.ChangeType INCOME; App.Submit "a" false;
    App.ChangeDescription "Farmacia"; App.ChangeAmount "4";
    App.ChangeDate "2024-01-03"; App.ChangeType EXPENSE; App.Submit "x" false;
    App.ChangeDescription "Venda"; App.ChangeAmount "6";
    App.ChangeDate "2024-01-01"; App.ChangeType INCOME; App.Submit "b" false;
    App.StartEditing
      (mkTransaction "x" "2024-01-03" "Farmacia" 4%float EXPENSE (Some 2%float));
    App.EditDate "";
    App.SaveEdit false ].

End Scenarios.

(** * Properties *)

(** ** The sort *)

Section SortFacts.
Context {A : Type}.
Variable comparefn : A -> A -> option Z.

Lemma insert_perm (x : A) (l : list A) :
  Permutation (insert comparefn x l) (x :: l).
Proof.
  induction l as [|y l IH]; simpl.
  - apply Permutation_refl.
  - destruct (SortCompare comparefn x y <=? 0).
    + apply Permutation_refl.
    + apply perm_trans with (y :: x :: l).
      * apply perm_skip, IH.
      * apply perm_swap.
Qed.

Lemma Array_sort_perm (l : list A) :
  Permutation (Array_sort comparefn l) l.
Proof.
  induction l as [|x l IH]; simpl.
  - apply perm_nil.
  - apply perm_trans with (x :: Array_sort comparefn l).
    + apply insert_perm.
    + apply perm_skip, IH.
Qed.

Lemma Array_sort_length (l : list A) :
  List.length (Array_sort comparefn l) = List.length l.
Proof. apply Permutation_length, Array_sort_perm. Qed.

(** The comparator is a consistent order on the elements that satisfy [ok]
    when it is the difference of a key. *)
Variable ok : A -> Prop.
Variable key : A -> Z.
Hypothesis comparefn_key :
  forall x y, ok x -> ok y -> comparefn x y = Some (key x - key y).

#[local] Abbreviation key_le := (key_le key).
#[local] Abbreviation has_key := (has_key key).

Lemma SortCompare_key x y :
  ok x -> ok y -> SortCompare comparefn x y = key x - key y.
Proof. intros Hx Hy. unfold SortCompare. now rewrite comparefn_key. Qed.

Lemma Array_sort_ok (l : list A) :
  Forall ok l -> Forall ok (Array_sort comparefn l).
Proof.
  intros Hl. apply Forall_forall. intros x Hx.
  rewrite Forall_forall in Hl. apply Hl.
  apply Permutation_in with (1 := Array_sort_perm l), Hx.
Qed.

Lemma insert_sorted (x : A) (l : list A) :
  ok x -> Forall ok l ->
  StronglySorted key_le l -> StronglySorted key_le (insert comparefn x l).
Proof.
  intros Hx Hl Hs. induction Hs as [|y l Hs IH Hy]; simpl.
  - constructor; constructor.
  - inversion Hl as [|? ? Hoky Hokl]; subst.
    rewrite SortCompare_key by assumption.
    destruct (Z.leb_spec (key x - key y) 0) as [Hle|Hgt].
    + constructor.
      * constructor; assumption.
      * constructor.
        -- unfold key_le. lia.
        -- eapply Forall_impl; [|exact Hy]. unfold key_le. intros z Hz. lia.
    + constructor.
      * apply IH, Hokl.
      * apply Forall_forall. intros z Hz.
        apply Permutation_in with (1 := insert_perm x l) in Hz.
        destruct Hz as [<-|Hz].
        -- unfold key_le. lia.
        -- rewrite Forall_forall in Hy. apply Hy, Hz.
Qed.

Lemma Array_sort_sorted (l : list A) :
  Forall ok l -> StronglySorted key_le (Array_sort comparefn l).
Proof.
  induction l as [|x l IH]; intros Hl; simpl.
  - constructor.
  - inversion Hl; subst. apply insert_sorted; auto using Array_sort_ok.
Qed.

Lemma insert_stable (k : Z) (x : A) (l : list A) :
  ok x -> Forall ok l ->
  filter (has_key k) (insert comparefn x l) = filter (has_key k) (x :: l).
Proof.
  intros Hx Hl. induction Hl as [|y l Hy Hl IH]; [reflexivity|].
  simpl insert. rewrite SortCompare_key by assumption.
  destruct (Z.leb_spec (key x - key y) 0) as [Hle|Hgt]; [reflexivity|].
  change (filter (has_key k) (y :: insert comparefn x l))
    with (if has_key k y then y :: filter (has_key k) (insert comparefn x l)
          else filter (has_key k) (insert comparefn x l)).
  rewrite IH. simpl. unfold has_key.
  destruct (Z.eqb_spec (key y) k), (Z.eqb_spec (key x) k); try reflexivity.
  lia.
Qed.

Lemma Array_sort_stable (k : Z) (l : list A) :
  Forall ok l ->
  filter (has_key k) (Array_sort comparefn l) = filter (has_key k) l.
Proof.
  induction l as [|x l IH]; intros Hl; [reflexivity|].
  inversion Hl; subst. simpl Array_sort.
  rewrite insert_stable by auto using Array_sort_ok.
  simpl. now rewrite IH.
Qed.

(** Sorted by key and stable: there is one such arrangement of a list, so
    the algorithm chosen for [Array_sort] does not matter. *)
Lemma stable_sort_unique (l1 l2 : list A) :
  StronglySorted key_le l1 -> StronglySorted key_le l2 ->
  (forall k, filter (has_key k) l1 = filter (has_key k) l2) ->
  l1 = l2.
Proof.
  intros H1. revert l2. induction H1 as [|x l1 H1 IH Hx]; intros l2 H2 Hf.
  - destruct l2 as [|y l2]; [reflexivity|].
    specialize (Hf (key y)). simpl in Hf. unfold has_key in Hf.
    rewrite Z.eqb_refl in Hf. discriminate.
  - destruct H2 as [|y l2 H2 Hy].
    + specialize (Hf (key x)). simpl in Hf. unfold has_key in Hf.
      rewrite Z.eqb_refl in Hf. discriminate.
    + assert (Hxy : key x = key y).
      { apply Z.le_antisymm.
        - assert (Hin : In y (filter (has_key (key y)) (x :: l1))).
          { rewrite Hf. simpl. unfold has_key. rewrite Z.eqb_refl. now left. }
          apply filter_In in Hin. destruct Hin as [[<-|Hin] _]; [lia|].
          rewrite Forall_forall in Hx. apply Hx, Hin.
        - assert (Hin : In x (filter (has_key (key x)) (y :: l2))).
          { rewrite <- Hf. simpl. unfold has_key. rewrite Z.eqb_refl. now left. }
          apply filter_In in Hin. destruct Hin as [[<-|Hin] _]; [lia|].
          rewrite Forall_forall in Hy. apply Hy, Hin. }
      assert (Hhd := Hf (key x)). simpl in Hhd. unfold has_key in Hhd.
      rewrite Z.eqb_refl, <- Hxy, Z.eqb_refl in Hhd.
      injection Hhd as -> _. f_equal. apply IH; [assumption|].
      intros k. specialize (Hf k). simpl in Hf.
      destruct (has_key k y); [now injection Hf|assumption].
Qed.
End SortFacts.

(** ** The derived view *)

Section ViewFacts.
Context {num : Type} `{Number num}.
Variable getTime : string -> option Z.

#[local] Abbreviation Transaction := (Types.Transaction num).

Lemma by_date_time (a b : Transaction) :
  valid_date getTime a -> valid_date getTime b ->
  App.by_date getTime a b = Some (time_of getTime a - time_of getTime b).
Proof.
  unfold valid_date, App.by_date, time_of. intros Ha Hb.
  destruct (getTime (Types.date a)); [|contradiction].
  destruct (getTime (Types.date b)); [reflexivity|contradiction].
Qed.

Lemma running_length (l : list Transaction) (c : num) :
  List.length (App.running c l) = List.length l.
Proof.
  revert c. induction l as [|t l IH]; intros c; simpl; [reflexivity|].
  now rewrite IH.
Qed.

Lemma running_nth (l : list Transaction) (c : num) (i : nat) (t : Transaction) :
  nth_error l i = Some t ->
  nth_error (App.running c l) i
  = Some (App.with_runningBalance t
            (fold_left App.apply_transaction (firstn (S i) l) c)).
Proof.
  revert c i. induction l as [|u l IH]; intros c i Hi.
  - destruct i; discriminate.
  - destruct i as [|i]; simpl in Hi.
    + injection Hi as ->. reflexivity.
    + change (App.running c (u :: l))
        with (App.with_runningBalance u (App.apply_transaction c u)
              :: App.running (App.apply_transaction c u) l).
      simpl nth_error. rewrite (IH _ _ Hi). reflexivity.
Qed.

Lemma running_last (l : list Transaction) (c : num) :
  l <> [] ->
  last_runningBalance (App.running c l)
  = Some (fold_left App.apply_transaction l c).
Proof.
  intros Hl.
  destruct (exists_last Hl) as [l' [t ->]].
  assert (Hn : nth_error (l' ++ [t])%list (List.length l') = Some t).
  { rewrite nth_error_app2 by lia. now rewrite Nat.sub_diag. }
  apply running_nth with (c := c) in Hn.
  rewrite firstn_all2 in Hn by (rewrite length_app; simpl; lia).
  unfold last_runningBalance.
  assert (Hr : exists r,
    App.running c (l' ++ [t])%list
    = (r ++ [App.with_runningBalance t
               (fold_left App.apply_transaction (l' ++ [t])%list c)])%list).
  { exists (firstn (List.length l') (App.running c (l' ++ [t])%list)).
    rewrite <- (firstn_skipn (List.length l') (App.running c (l' ++ [t])%list)) at 1.
    f_equal.
    assert (Hlen := running_length (l' ++ [t])%list c).
    rewrite length_app in Hlen. simpl in Hlen.
    remember (App.running c (l' ++ [t])%list) as v.
    clear Heqv. revert v Hn Hlen.
    induction (List.length l') as [|n IHn]; intros v Hn Hlen.
    - destruct v as [|x [|y v]]; simpl in *; try discriminate; try lia.
      now injection Hn as ->.
    - destruct v as [|x v]; simpl in *; [discriminate|].
      apply IHn; [assumption|lia]. }
  destruct Hr as [r ->]. rewrite rev_app_distr. reflexivity.
Qed.

(** C2, amended.  For every ledger whose dates are valid calendar dates, the view is
    the list of entries in ascending order of date, entries of the same date in
    their original relative order, and the entry at each position carries the
    balance obtained by folding from the starting balance over the sorted
    entries up to and including it, adding the amount of an income and
    subtracting the amount of an expense. *)
Theorem processedTransactions_sorted_stable_running
  (transactions : list Transaction) (initialBalance : num) :
  Forall (valid_date getTime) transactions ->
  exists sorted : list Transaction,
    Permutation sorted transactions
    /\ StronglySorted (key_le (time_of getTime)) sorted
    /\ (forall k, filter (has_key (time_of getTime) k) sorted
                  = filter (has_key (time_of getTime) k) transactions)
    /\ List.length (App.processedTransactions getTime transactions initialBalance)
       = List.length transactions
    /\ forall i t, nth_error sorted i = Some t ->
         nth_error (App.processedTransactions getTime transactions initialBalance) i
         = Some (Types.mkTransaction (Types.id t) (Types.date t)
                   (Types.description t) (Types.amount t) (Types.type t)
                   (Some (fold_left
                            (fun current u =>
                               match Types.type u with
                               | Types.INCOME => add current (Types.amount u)
                               | Types.EXPENSE => sub current (Types.amount u)
                               end)
                            (firstn (S i) sorted) initialBalance))).
Proof.
  intros Hvalid.
  exists (Array_sort (App.by_date getTime) transactions).
  split; [apply Array_sort_perm|].
  split.
  { apply Array_sort_sorted with (ok := valid_date getTime); [|assumption].
    intros x y. apply by_date_time. }
  split.
  { intros k.
    apply Array_sort_stable with (ok := valid_date getTime); [|assumption].
    intros x y. apply by_date_time. }
  split.
  { unfold App.processedTransactions.
    now rewrite running_length, Array_sort_length. }
  intros i t Hi. unfold App.processedTransactions.
  rewrite (running_nth _ _ _ _ Hi). unfold App.with_runningBalance.
  do 3 f_equal.
  generalize (firstn (S i) (Array_sort (App.by_date getTime) transactions)).
  intros l. revert initialBalance. induction l as [|u l IH]; intros c; [reflexivity|].
  simpl. rewrite <- IH. f_equal. unfold App.apply_transaction.
  destruct (Types.type u); reflexivity.
Qed.
End ViewFacts.

(** Example 1 of the specification, on binary64. *)
Example processedTransactions_example1 :
  map Types.runningBalance
    (App.processedTransactions IsoDate.getTime Ledgers.example1 1000%float)
  = [Some 800%float; Some 1300%float]
  /\ map Types.date
       (App.processedTransactions IsoDate.getTime Ledgers.example1 1000%float)
     = ["2024-01-01"; "2024-01-05"]
  /\ App.summary Ledgers.example1 1000%float
     = Types.mkSummary 1000%float 500%float 200%float 1300%float.
Proof. vm_compute. repeat split. Qed.

Lemma processedTransactions_sorted_stable_running_witness :
  Forall (valid_date IsoDate.getTime) Ledgers.example1
  /\ exists sorted : list (Types.Transaction float),
       Permutation sorted Ledgers.example1
       /\ StronglySorted (key_le (time_of IsoDate.getTime)) sorted
       /\ (forall k, filter (has_key (time_of IsoDate.getTime) k) sorted
                     = filter (has_key (time_of IsoDate.getTime) k) Ledgers.example1)
       /\ List.length
            (App.processedTransactions IsoDate.getTime Ledgers.example1 1000%float)
          = List.length Ledgers.example1
       /\ forall i t, nth_error sorted i = Some t ->
            nth_error
              (App.processedTransactions IsoDate.getTime Ledgers.example1 1000%float) i
            = Some (Types.mkTransaction (Types.id t) (Types.date t)
                      (Types.description t) (Types.amount t) (Types.type t)
                      (Some (fold_left
                               (fun current u =>
                                  match Types.type u with
                                  | Types.INCOME => add current (Types.amount u)
                                  | Types.EXPENSE => sub current (Types.amount u)
                                  end)
                               (firstn (S i) sorted) 1000%float))).
Proof.
  assert (Hvalid : Forall (valid_date IsoDate.getTime) Ledgers.example1).
  { repeat constructor; unfold valid_date; vm_compute; discriminate. }
  split; [exact Hvalid|].
  exact (processedTransactions_sorted_stable_running
           IsoDate.getTime Ledgers.example1 1000%float Hvalid).
Defined.

(** The ledger of the next lemma is one the page reaches: the row opened in
    the session is a row of the view, and the date input of an open row may be
    cleared. *)
Example session_cleared_date :
  nth_error
    (App.processedTransactions IsoDate.getTime
       [ Types.mkTransaction "a" "2024-01-05" "Beneficio" 10%float Types.INCOME None;
         Types.mkTransaction "x" "2024-01-03" "Farmacia" 4%float Types.EXPENSE None;
         Types.mkTransaction "b" "2024-01-01" "Venda" 6%float Types.INCOME None ]
       0%float) 1
  = Some (Types.mkTransaction "x" "2024-01-03" "Farmacia" 4%float Types.EXPENSE
            (Some 2%float))
  /\ App.transactions
       (App.run DecimalLiteral.parseFloat false Scenarios.clearing_session
          Scenarios.start)
     = Ledgers.cleared_date.
Proof. vm_compute. split; reflexivity. Qed.

(** With an entry whose date is not valid, the comparator is NaN for every
    pair that involves it and the view need not be in the order of the dates:
    here the row of 5 January comes before the row of 1 January, and the
    running balances follow that order. *)
Lemma processedTransactions_cleared_date :
  map Types.date
    (App.processedTransactions IsoDate.getTime Ledgers.cleared_date 0%float)
  = ["2024-01-05"; ""; "2024-01-01"]
  /\ map Types.runningBalance
       (App.processedTransactions IsoDate.getTime Ledgers.cleared_date 0%float)
     = [Some 10%float; Some 6%float; Some 12%float]
  /\ IsoDate.getTime "2024-01-05" = Some 1704412800000
  /\ IsoDate.getTime "2024-01-01" = Some 1704067200000
  /\ IsoDate.getTime "" = None
  /\ ~ StronglySorted (key_le (time_of IsoDate.getTime))
        (filter (fun t => match IsoDate.getTime (Types.date t) with
                          | Some _ => true
                          | None => false
                          end)
           (App.processedTransactions IsoDate.getTime Ledgers.cleared_date 0%float)).
Proof.
  split; [vm_compute; reflexivity|]. split; [vm_compute; reflexivity|].
  split; [vm_compute; reflexivity|]. split; [vm_compute; reflexivity|].
  split; [vm_compute; reflexivity|].
  intros Hs. inversion Hs as [|t l _ Hall Heq]; subst.
  inversion Hall as [|u l' Hle _ Heq']; subst.
  unfold key_le in Hle. vm_compute in Hle. apply Hle. reflexivity.
Qed.

(** ** The summary *)

(** The totals do not look at the order of the entries when addition is
    associative and commutative; the final balance is the last running balance
    when, besides, subtraction undoes addition.  These are the laws of exact
    (decimal or integer) arithmetic; binary64 has none of them. *)
Section ExactArithmetic.
Context {num : Type} `{Number num}.

#[local] Abbreviation Transaction := (Types.Transaction num).

Hypothesis add_assoc : forall x y z : num, add x (add y z) = add (add x y) z.
Hypothesis add_comm : forall x y : num, add x y = add y x.

Lemma fold_add_swap (l : list Transaction) (a : num) (t : Transaction) :
  fold_left (fun acc u => add acc (Types.amount u)) l (add a (Types.amount t))
  = add (fold_left (fun acc u => add acc (Types.amount u)) l a) (Types.amount t).
Proof.
  revert a. induction l as [|u l IH]; intros a; simpl; [reflexivity|].
  rewrite <- IH. f_equal.
  rewrite <- !add_assoc. f_equal. apply add_comm.
Qed.

Lemma sum_amounts_cons (t : Transaction) (l : list Transaction) :
  App.sum_amounts (t :: l) = add (App.sum_amounts l) (Types.amount t).
Proof. unfold App.sum_amounts. simpl. apply fold_add_swap. Qed.

Lemma sum_amounts_filter_perm (p : Transaction -> bool) (l l' : list Transaction) :
  Permutation l l' ->
  App.sum_amounts (filter p l) = App.sum_amounts (filter p l').
Proof.
  induction 1 as [|x l l' _ IH|x y l|l l' l'' _ IH1 _ IH2].
  - reflexivity.
  - simpl. destruct (p x); [|exact IH].
    now rewrite !sum_amounts_cons, IH.
  - simpl. destruct (p x), (p y); try reflexivity.
    rewrite !sum_amounts_cons, <- !add_assoc. f_equal. apply add_comm.
  - now rewrite IH1.
Qed.

(** C8, amended.  When addition is associative and commutative, the summary
    of a ledger is the same for every arrangement of its entries: same total
    income, same total expenses, same final balance. *)
Theorem summary_order_independent
  (transactions transactions' : list Transaction) (initialBalance : num) :
  Permutation transactions transactions' ->
  App.summary transactions initialBalance = App.summary transactions' initialBalance.
Proof.
  intros Hp. unfold App.summary.
  now rewrite (sum_amounts_filter_perm _ _ _ Hp),
    (sum_amounts_filter_perm (App.is_type Types.EXPENSE) _ _ Hp).
Qed.

Hypothesis add_zero : forall x : num, add x zero = x.
Hypothesis sub_zero : forall x : num, sub x zero = x.
Hypothesis sub_sub : forall x y z : num, sub (sub x y) z = sub x (add z y).
Hypothesis add_sub : forall x y z : num, add (sub x y) z = sub (add x z) y.


End ExactArithmetic.

Lemma summary_order_independent_witness :
  (forall x y z : Z, add x (add y z) = add (add x y) z)
  /\ (forall x y : Z, add x y = add y x)
  /\ Permutation Ledgers.cents (rev Ledgers.cents)
  /\ App.summary Ledgers.cents 100 = App.summary (rev Ledgers.cents) 100.
Proof.
  assert (Hassoc : forall x y z : Z, add x (add y z) = add (add x y) z)
    by (intros; simpl; lia).
  assert (Hcomm : forall x y : Z, add x y = add y x) by (intros; simpl; lia).
  assert (Hperm : Permutation Ledgers.cents (rev Ledgers.cents))
    by apply Permutation_rev.
  refine (conj Hassoc (conj Hcomm (conj Hperm _))).
  exact (summary_order_independent Hassoc Hcomm
           Ledgers.cents (rev Ledgers.cents) 100 Hperm).
Defined.


(** ** Binary64 *)

Lemma float_differ_neq (x y : float) :
  float_differ x y = true -> x <> y.
Proof.
  unfold float_differ. intros Hd Heq. subst y.
  destruct (PrimFloat.eqb x x); discriminate.
Qed.

Ltac floats_differ :=
  match goal with
  | Heq : @eq float _ _ |- False =>
      vm_compute in Heq; revert Heq; apply float_differ_neq; vm_compute; reflexivity
  end.

(** The ledger of the next lemma is one the page reaches: it is what the
    session leaves, typed in through the form. *)
Example session_two_incomes :
  App.transactions
    (App.run DecimalLiteral.parseFloat false Scenarios.session Scenarios.start)
  = Ledgers.two_incomes
  /\ App.initialBalance
       (App.run DecimalLiteral.parseFloat false Scenarios.session Scenarios.start)
     = 0.1%float.
Proof. vm_compute. split; reflexivity. Qed.


(** On the numbers of the program, incomes of 0.10, 0.20 and 0.30 total
    [(0.1 + 0.2) + 0.3] in this order and [(0.3 + 0.2) + 0.1] in the reverse
    one. *)
Lemma summary_order_dependent_binary64 :
  Permutation Ledgers.three_incomes (rev Ledgers.three_incomes)
  /\ App.summary Ledgers.three_incomes 0%float
     <> App.summary (rev Ledgers.three_incomes) 0%float.
Proof.
  split; [apply Permutation_rev|].
  intros Heq. apply (f_equal Types.totalIncome) in Heq.
  floats_differ.
Qed.

(** ** The mutations of the transaction list *)

Section StoreFacts.
Context {num : Type} `{Number num}.
Variable parseFloat : string -> num.
Variable isSupabaseConfigured : bool.

#[local] Abbreviation Transaction := (Types.Transaction num).
#[local] Abbreviation State := (App.State num).
#[local] Abbreviation handleAddTransaction :=
  (App.handleAddTransaction parseFloat isSupabaseConfigured).
#[local] Abbreviation deleteTransaction := (App.deleteTransaction isSupabaseConfigured).
#[local] Abbreviation saveEdit := (App.saveEdit isSupabaseConfigured).

Lemma truthy_string_false (s : string) :
  truthy_string s = false <-> s = "".
Proof.
  unfold truthy_string. destruct (String.eqb_spec s ""); simpl; split; congruence.
Qed.

Lemma setTransactions_same (s : State) :
  App.setTransactions (App.transactions s) s = s.
Proof. destruct s; reflexivity. Qed.

Lemma filter_twice (p : Transaction -> bool) (l : list Transaction) :
  filter p (filter p l) = filter p l.
Proof.
  induction l as [|t l IH]; simpl; [reflexivity|].
  destruct (p t) eqn:Hp; simpl; [rewrite Hp, IH|]; auto.
Qed.

Lemma filter_absent (id : string) (l : list Transaction) :
  ~ In id (map Types.id l) ->
  filter (fun t => negb (Types.id t =? id)%string) l = l.
Proof.
  induction l as [|t l IH]; simpl; intros Hn; [reflexivity|].
  destruct (String.eqb_spec (Types.id t) id) as [Heq|Hneq]; simpl.
  - exfalso. apply Hn. now left.
  - f_equal. apply IH. intros Hin. apply Hn. now right.
Qed.

Lemma map_replace_absent (eid : string) (form : Transaction) (l : list Transaction) :
  ~ In eid (map Types.id l) ->
  map (fun t => if (Types.id t =? eid)%string then form else t) l = l.
Proof.
  induction l as [|t l IH]; simpl; intros Hn; [reflexivity|].
  destruct (String.eqb_spec (Types.id t) eid) as [Heq|Hneq].
  - exfalso. apply Hn. now left.
  - f_equal. apply IH. intros Hin. apply Hn. now right.
Qed.

Lemma map_replace_ids (eid : string) (form : Transaction) (l : list Transaction) :
  Types.id form = eid ->
  map Types.id (map (fun t => if (Types.id t =? eid)%string then form else t) l)
  = map Types.id l.
Proof.
  intros Hid. induction l as [|t l IH]; simpl; [reflexivity|].
  rewrite IH. f_equal.
  destruct (String.eqb_spec (Types.id t) eid); congruence.
Qed.

Lemma filter_ids_NoDup (p : Transaction -> bool) (l : list Transaction) :
  NoDup (map Types.id l) -> NoDup (map Types.id (filter p l)).
Proof.
  induction l as [|t l IH]; simpl; intros Hnd; [constructor|].
  inversion Hnd as [|? ? Hnotin Hnd']; subst.
  destruct (p t); simpl; [|now apply IH].
  constructor; [|now apply IH].
  intros Hin. apply Hnotin.
  apply in_map_iff in Hin. destruct Hin as [u [Hu Hin]].
  apply filter_In in Hin. apply in_map_iff. exists u. tauto.
Qed.

(** C3, amended.  [handleAddTransaction] returns at once, without an error and
    with the whole state as it was, exactly when the description is empty, the
    amount field is empty, or the amount read by [parseFloat] is [<= 0];
    otherwise it appends one entry made of the fresh identifier and the form's
    fields, whatever the date field holds, and reports nothing. *)
Theorem handleAddTransaction_validation (uuid : string) (error : bool) (s : State) :
  (App.description s = "" \/ App.amount s = ""
   \/ leb (parseFloat (App.amount s)) zero = true ->
   handleAddTransaction uuid error s = (s, []))
  /\ (App.description s <> "" -> App.amount s <> ""
      -> leb (parseFloat (App.amount s)) zero = false ->
      App.transactions (fst (handleAddTransaction uuid error s))
      = (App.transactions s
         ++ [Types.mkTransaction uuid (App.date s) (App.description s)
               (parseFloat (App.amount s)) (App.type s) None])%list
      /\ App.initialBalance (fst (handleAddTransaction uuid error s))
         = App.initialBalance s
      /\ App.reports_failure (handleAddTransaction uuid error s) = false).
Proof.
  unfold App.handleAddTransaction. split.
  - intros [Hd|[Ha|Hl]].
    + apply truthy_string_false in Hd. now rewrite Hd.
    + apply truthy_string_false in Ha. rewrite Ha.
      now rewrite orb_true_r.
    + rewrite Hl. now rewrite orb_true_r.
  - intros Hd Ha Hl.
    destruct (truthy_string (App.description s)) eqn:Td;
      [|apply truthy_string_false in Td; contradiction].
    destruct (truthy_string (App.amount s)) eqn:Ta;
      [|apply truthy_string_false in Ta; contradiction].
    rewrite Hl. simpl. repeat split.
    destruct (isSupabaseConfigured && error); reflexivity.
Qed.

(** C6.  [deleteTransaction] is idempotent: deleting an identifier a second
    time gives the state the first deletion gave; deleting an identifier no
    entry has leaves the state as it is; and no outcome of the remote deletion
    makes the handler report a failure. *)
Theorem deleteTransaction_idempotent (id : string) (error error' : bool) (s : State) :
  fst (deleteTransaction id error' (fst (deleteTransaction id error s)))
  = fst (deleteTransaction id error s)
  /\ (~ In id (map Types.id (App.transactions s)) ->
      fst (deleteTransaction id error s) = s)
  /\ App.reports_failure (deleteTransaction id error s) = false.
Proof.
  unfold App.deleteTransaction. simpl. repeat split.
  - destruct s; unfold App.setTransactions; simpl. f_equal. apply filter_twice.
  - intros Hn. rewrite filter_absent by assumption. apply setTransactions_same.
  - unfold App.reports_failure. simpl.
    destruct (isSupabaseConfigured && error); reflexivity.
Qed.

Lemma saveEdit_open
  (error : bool) (s : State) (form : Transaction) (eid : string) :
  App.editForm s = Some form -> App.editingId s = Some eid -> eid <> "" ->
  saveEdit error s
  = if isSupabaseConfigured && error
    then (s, [App.alert "Erro ao atualizar no banco de dados."])
    else
      (App.setEditForm None (App.setEditingId None
         (App.setTransactions
            (map (fun t => if (Types.id t =? eid)%string then form else t)
               (App.transactions s)) s)),
       []).
Proof.
  intros Hf He Hne. unfold App.saveEdit. rewrite Hf, He.
  destruct (truthy_string eid) eqn:Te;
    [reflexivity|apply truthy_string_false in Te; contradiction].
Qed.

(** C4, amended.  With a row open for editing, [saveEdit] replaces every entry
    that has the edited identifier by the form and closes the row when the
    remote store is not configured or its update succeeds; when the remote
    update fails it raises an alert and leaves the whole state, entries and
    open row included, as it was. *)
Theorem saveEdit_remote_outcome
  (error : bool) (s : State) (form : Transaction) (eid : string) :
  App.editForm s = Some form -> App.editingId s = Some eid -> eid <> "" ->
  (isSupabaseConfigured && error = false ->
   App.transactions (fst (saveEdit error s))
   = map (fun t => if (Types.id t =? eid)%string then form else t) (App.transactions s)
   /\ App.editingId (fst (saveEdit error s)) = None
   /\ App.editForm (fst (saveEdit error s)) = None
   /\ snd (saveEdit error s) = [])
  /\ (isSupabaseConfigured && error = true ->
      saveEdit error s = (s, [App.alert "Erro ao atualizar no banco de dados."])).
Proof.
  intros Hf He Hne. rewrite (saveEdit_open error s form eid Hf He Hne).
  split; intros Hc; rewrite Hc; repeat split.
Qed.

(** C5, amended.  With a row open for editing, [saveEdit] on an identifier no
    entry has leaves the entries as they are and raises no error of its own
    (it reports a failure only if the remote update failed); on an identifier
    some entries have, unless the remote update failed, each of them is
    replaced by the form and every other entry is kept. *)
Theorem saveEdit_by_id
  (error : bool) (s : State) (form : Transaction) (eid : string) :
  App.editForm s = Some form -> App.editingId s = Some eid -> eid <> "" ->
  (~ In eid (map Types.id (App.transactions s)) ->
   App.transactions (fst (saveEdit error s)) = App.transactions s
   /\ App.reports_failure (saveEdit error s) = isSupabaseConfigured && error)
  /\ (isSupabaseConfigured && error = false ->
      forall i t, nth_error (App.transactions s) i = Some t ->
        nth_error (App.transactions (fst (saveEdit error s))) i
        = Some (if (Types.id t =? eid)%string then form else t)).
Proof.
  intros Hf He Hne. rewrite (saveEdit_open error s form eid Hf He Hne).
  split.
  - intros Habs. destruct (isSupabaseConfigured && error); simpl.
    + split; reflexivity.
    + split; [now apply map_replace_absent|reflexivity].
  - intros Hc i t Hi. rewrite Hc. simpl.
    rewrite nth_error_map, Hi. reflexivity.
Qed.
End StoreFacts.

(** On a form whose date field is empty, [handleAddTransaction] appends the
    entry, with that date, and reports nothing. *)
Lemma handleAddTransaction_no_date :
  IsoDate.getTime (App.date Scenarios.no_date_form) = None
  /\ App.transactions
       (fst (App.handleAddTransaction DecimalLiteral.parseFloat false "id-1" false
               Scenarios.no_date_form))
     = [Types.mkTransaction "id-1" "" "Aluguel" 5%float Types.EXPENSE None]
  /\ App.reports_failure
       (App.handleAddTransaction DecimalLiteral.parseFloat false "id-1" false
          Scenarios.no_date_form)
     = false.
Proof. vm_compute. repeat split. Qed.

(** Example 3 of the specification: an amount of -5 is refused and the state
    is as it was. *)
Example handleAddTransaction_example3 :
  App.handleAddTransaction DecimalLiteral.parseFloat false "id-1" false
    Scenarios.negative_amount_form
  = (Scenarios.negative_amount_form, []).
Proof. vm_compute. reflexivity. Qed.

(** Example 4 of the specification: removing an identifier no entry has. *)
Example deleteTransaction_example4 :
  App.deleteTransaction false "nonexistent" false Scenarios.editing
  = (Scenarios.editing, []).
Proof. vm_compute. reflexivity. Qed.

Lemma saveEdit_remote_outcome_witness :
  App.editForm Scenarios.editing = Some Scenarios.edited_row
  /\ App.editingId Scenarios.editing = Some "t2"
  /\ "t2" <> ""
  /\ App.saveEdit true true Scenarios.editing
     = (Scenarios.editing, [App.alert "Erro ao atualizar no banco de dados."]).
Proof.
  assert (Hne : "t2" <> "") by discriminate.
  refine (conj eq_refl (conj eq_refl (conj Hne _))).
  exact (proj2 (saveEdit_remote_outcome true true Scenarios.editing
                  Scenarios.edited_row "t2" eq_refl eq_refl Hne) eq_refl).
Defined.

(** With the remote store configured and its update failing, [saveEdit] on an
    identifier that is present reports the failure and leaves the entry as it
    was: the description is still "Farmacia", not the form's "Mercado". *)
Lemma saveEdit_remote_failure_blocks :
  In "t2" (map Types.id (App.transactions Scenarios.editing))
  /\ App.reports_failure (App.saveEdit true true Scenarios.editing) = true
  /\ App.transactions (fst (App.saveEdit true true Scenarios.editing))
     = App.transactions Scenarios.editing
  /\ App.transactions (fst (App.saveEdit true true Scenarios.editing))
     <> map (fun t => if (Types.id t =? "t2")%string then Scenarios.edited_row else t)
          (App.transactions Scenarios.editing).
Proof.
  split; [simpl; auto|]. split; [reflexivity|]. split; [reflexivity|].
  intros Heq. apply (f_equal (map Types.description)) in Heq.
  vm_compute in Heq. discriminate Heq.
Qed.

Lemma saveEdit_by_id_witness :
  App.editForm Scenarios.editing_missing = Some Scenarios.missing_row
  /\ App.editingId Scenarios.editing_missing = Some "zz"
  /\ "zz" <> ""
  /\ ~ In "zz" (map Types.id (App.transactions Scenarios.editing_missing))
  /\ App.transactions (fst (App.saveEdit false false Scenarios.editing_missing))
     = App.transactions Scenarios.editing_missing
  /\ App.reports_failure (App.saveEdit false false Scenarios.editing_missing)
     = false && false.
Proof.
  assert (Hne : "zz" <> "") by discriminate.
  assert (Habs : ~ In "zz" (map Types.id (App.transactions Scenarios.editing_missing))).
  { simpl. intros [Hin|[Hin|[]]]; discriminate Hin. }
  refine (conj eq_refl (conj eq_refl (conj Hne (conj Habs _)))).
  exact (proj1 (saveEdit_by_id false false Scenarios.editing_missing
                  Scenarios.missing_row "zz" eq_refl eq_refl Hne) Habs).
Defined.

(** [saveEdit] on an identifier that no entry has ends like a successful save:
    nothing is reported and the row is closed. *)
Lemma saveEdit_absent_id_silent :
  ~ In "zz" (map Types.id (App.transactions Scenarios.editing_missing))
  /\ App.reports_failure (App.saveEdit false false Scenarios.editing_missing) = false
  /\ snd (App.saveEdit false false Scenarios.editing_missing) = []
  /\ App.editingId (fst (App.saveEdit false false Scenarios.editing_missing)) = None
  /\ App.editForm (fst (App.saveEdit false false Scenarios.editing_missing)) = None.
Proof.
  split.
  - simpl. intros [Hin|[Hin|[]]]; discriminate Hin.
  - repeat split.
Qed.

(** ** The identifiers stay pairwise distinct *)

Section InvariantFacts.
Context {num : Type} `{Number num}.
Variable parseFloat : string -> num.
Variable isSupabaseConfigured : bool.

#[local] Abbreviation State := (App.State num).
#[local] Abbreviation dispatch := (App.dispatch parseFloat isSupabaseConfigured).

Lemma handleAddTransaction_distinct (uuid : string) (error : bool) (s : State) :
  App.distinct_ids (App.transactions s) ->
  ~ In uuid (map Types.id (App.transactions s)) ->
  App.distinct_ids
    (App.transactions
       (fst (App.handleAddTransaction parseFloat isSupabaseConfigured uuid error s))).
Proof.
  unfold App.distinct_ids, App.handleAddTransaction. intros Hnd Hfresh.
  destruct (negb (truthy_string (App.description s))
            || negb (truthy_string (App.amount s))
            || leb (parseFloat (App.amount s)) zero); simpl; [assumption|].
  rewrite map_app. simpl.
  apply NoDup_rev in Hnd.
  apply (Permutation_NoDup (l := uuid :: map Types.id (App.transactions s))).
  - apply Permutation_cons_append.
  - constructor; [assumption|]. apply NoDup_rev in Hnd. now rewrite rev_involutive in Hnd.
Qed.

Lemma deleteTransaction_distinct (id : string) (error : bool) (s : State) :
  App.distinct_ids (App.transactions s) ->
  App.distinct_ids
    (App.transactions (fst (App.deleteTransaction isSupabaseConfigured id error s))).
Proof. unfold App.distinct_ids. simpl. apply filter_ids_NoDup. Qed.

Lemma saveEdit_distinct (error : bool) (s : State) :
  App.distinct_ids (App.transactions s) -> App.edit_consistent s ->
  App.distinct_ids
    (App.transactions (fst (App.saveEdit isSupabaseConfigured error s))).
Proof.
  unfold App.distinct_ids, App.edit_consistent, App.saveEdit. intros Hnd Hc.
  destruct (App.editForm s) as [form|]; [|assumption].
  destruct (App.editingId s) as [eid|]; [|assumption].
  destruct (negb (truthy_string eid)); [assumption|].
  destruct (isSupabaseConfigured && error); [assumption|].
  simpl. now rewrite map_replace_ids.
Qed.

Lemma saveEdit_same_ids (error : bool) (s : State) :
  App.edit_consistent s ->
  map Types.id (App.transactions (fst (App.saveEdit isSupabaseConfigured error s)))
  = map Types.id (App.transactions s).
Proof.
  unfold App.edit_consistent, App.saveEdit. intros Hc.
  destruct (App.editForm s) as [form|]; [|reflexivity].
  destruct (App.editingId s) as [eid|]; [|reflexivity].
  destruct (negb (truthy_string eid)); [reflexivity|].
  destruct (isSupabaseConfigured && error); [reflexivity|].
  simpl. now apply map_replace_ids.
Qed.

(** C9.  From a ledger whose identifiers are pairwise distinct, adding an
    entry under an identifier no entry has, saving the open row (which carries
    the identifier it was opened with, so that the identifiers of the entries
    do not change) and deleting an entry each give a ledger whose identifiers
    are pairwise distinct. *)
Theorem mutations_preserve_distinct_ids
  (uuid id : string) (error : bool) (s : State) :
  App.distinct_ids (App.transactions s) ->
  App.edit_consistent s ->
  ~ In uuid (map Types.id (App.transactions s)) ->
  App.distinct_ids
    (App.transactions
       (fst (App.handleAddTransaction parseFloat isSupabaseConfigured uuid error s)))
  /\ (App.distinct_ids
        (App.transactions (fst (App.saveEdit isSupabaseConfigured error s)))
      /\ map Types.id (App.transactions (fst (App.saveEdit isSupabaseConfigured error s)))
         = map Types.id (App.transactions s))
  /\ App.distinct_ids
       (App.transactions (fst (App.deleteTransaction isSupabaseConfigured id error s))).
Proof.
  intros Hnd Hc Hfresh. split; [|split; [split|]].
  - now apply handleAddTransaction_distinct.
  - now apply saveEdit_distinct.
  - now apply saveEdit_same_ids.
  - now apply deleteTransaction_distinct.
Qed.

(** The open row carries the identifier it was opened with: every action
    keeps it so, and [startEditing] makes it so. *)
Lemma dispatch_edit_consistent (a : App.Action) (s : State) :
  App.edit_consistent s -> App.edit_consistent (fst (dispatch a s)).
Proof.
  unfold App.edit_consistent. intros Hc.
  destruct a; simpl; try assumption; try exact I.
  - unfold App.handleAddTransaction.
    destruct (negb (truthy_string (App.description s))
              || negb (truthy_string (App.amount s))
              || leb (parseFloat (App.amount s)) zero); simpl; assumption.
  - reflexivity.
  - destruct (App.editForm s); simpl; assumption.
  - destruct (App.editForm s); simpl; assumption.
  - destruct (App.editForm s); simpl; assumption.
  - destruct (App.editForm s); simpl; assumption.
  - unfold App.saveEdit.
    destruct (App.editForm s) as [form|] eqn:Hf; [|simpl; now rewrite Hf].
    destruct (App.editingId s) as [eid|] eqn:He; [|simpl; now rewrite Hf, He].
    destruct (negb (truthy_string eid)); [simpl; now rewrite Hf, He|].
    destruct (isSupabaseConfigured && error); [simpl; now rewrite Hf, He|].
    simpl. exact I.
Qed.

Lemma dispatch_distinct_ids (a : App.Action) (s : State) :
  App.distinct_ids (App.transactions s) -> App.edit_consistent s -> App.fresh a s ->
  App.distinct_ids (App.transactions (fst (dispatch a s))).
Proof.
  intros Hnd Hc Hfresh. destruct a; try (simpl; assumption); unfold App.dispatch.
  - now apply handleAddTransaction_distinct.
  - now apply deleteTransaction_distinct.
  - now apply saveEdit_distinct.
Qed.

(** X14.  Whatever the user does, from a state with pairwise distinct
    identifiers and no row open, and as long as every new identifier is one no
    entry has, the identifiers stay pairwise distinct and the open row carries
    the identifier it was opened with. *)
Lemma reachable_distinct_ids (s0 s : State) :
  App.distinct_ids (App.transactions s0) -> App.editingId s0 = None ->
  App.reachable parseFloat isSupabaseConfigured s0 s ->
  App.distinct_ids (App.transactions s) /\ App.edit_consistent s.
Proof.
  intros Hnd Hclosed Hr. induction Hr as [|s a Hr IH Hfresh].
  - split; [assumption|]. unfold App.edit_consistent. rewrite Hclosed.
    destruct (App.editForm s0); exact I.
  - destruct IH as [IHd IHc]. split.
    + now apply dispatch_distinct_ids.
    + now apply dispatch_edit_consistent.
Qed.
End InvariantFacts.

Lemma mutations_preserve_distinct_ids_witness :
  App.distinct_ids (App.transactions Scenarios.editing)
  /\ App.edit_consistent Scenarios.editing
  /\ ~ In "t3" (map Types.id (App.transactions Scenarios.editing))
  /\ App.distinct_ids
       (App.transactions
          (fst (App.handleAddTransaction DecimalLiteral.parseFloat true "t3" false
                  Scenarios.editing)))
  /\ (App.distinct_ids
        (App.transactions (fst (App.saveEdit true false Scenarios.editing)))
      /\ map Types.id (App.transactions (fst (App.saveEdit true false Scenarios.editing)))
         = map Types.id (App.transactions Scenarios.editing))
  /\ App.distinct_ids
       (App.transactions (fst (App.deleteTransaction true "t1" false Scenarios.editing))).
Proof.
  assert (Hnd : App.distinct_ids (App.transactions Scenarios.editing)).
  { unfold App.distinct_ids. simpl. repeat constructor; simpl.
    - intros [Hin|[]]; discriminate Hin.
    - intros []. }
  assert (Hc : App.edit_consistent Scenarios.editing) by reflexivity.
  assert (Hfresh : ~ In "t3" (map Types.id (App.transactions Scenarios.editing))).
  { simpl. intros [Hin|[Hin|[]]]; discriminate Hin. }
  refine (conj Hnd (conj Hc (conj Hfresh _))).
  exact (mutations_preserve_distinct_ids DecimalLiteral.parseFloat true
           "t3" "t1" false Scenarios.editing Hnd Hc Hfresh).
Defined.

(** ** The advice request *)

Section AdviceFacts.
Context {num : Type}.
Variable toFixed : num -> nat -> string.

#[local] Abbreviation Transaction := (Types.Transaction num).

Lemma length_zero_nil (l : list Transaction) :
  (List.length l =? 0)%nat = true <-> l = [].
Proof.
  destruct l; simpl; split; intros Hl; try reflexivity; discriminate Hl.
Qed.

(** C7.  [getFinancialAdvice] always completes normally with a text: the
    sentence asking for entries when the list is empty; otherwise the sentence
    about the pending configuration when the key is undefined or empty;
    otherwise the sentence about the resting service when the remote call
    throws; it never throws itself. *)
Theorem getFinancialAdvice_always_text
  (API_KEY : option string)
  (generateContent : string -> string -> string -> Completion (option string))
  (transactions : list Transaction) (summary : Types.Summary num) :
  (exists text : string,
     GeminiService.getFinancialAdvice toFixed API_KEY generateContent
       transactions summary = Normal text)
  /\ (transactions = [] ->
      GeminiService.getFinancialAdvice toFixed API_KEY generateContent
        transactions summary = Normal GeminiService.no_transactions_text)
  /\ (transactions <> [] -> truthy_opt_string API_KEY = false ->
      GeminiService.getFinancialAdvice toFixed API_KEY generateContent
        transactions summary = Normal GeminiService.no_key_text)
  /\ (forall apiKey e, transactions <> [] ->
      API_KEY = Some apiKey -> apiKey <> "" ->
      generateContent apiKey GeminiService.model
        (GeminiService.contents toFixed transactions summary) = Throw e ->
      GeminiService.getFinancialAdvice toFixed API_KEY generateContent
        transactions summary = Normal GeminiService.failure_text).
Proof.
  unfold GeminiService.getFinancialAdvice.
  destruct (List.length transactions =? 0)%nat eqn:Hlen.
  - apply length_zero_nil in Hlen.
    split; [eexists; reflexivity|]. split; [reflexivity|].
    split; [intros Hne; contradiction|]. intros ? ? Hne. contradiction.
  - assert (Hne : transactions <> []).
    { intros Hnil. apply length_zero_nil in Hnil. congruence. }
    split; [|split; [intros; contradiction|split]].
    + destruct API_KEY as [apiKey|]; [|eexists; reflexivity].
      destruct (truthy_string apiKey); simpl; [|eexists; reflexivity].
      destruct (generateContent apiKey GeminiService.model
                  (GeminiService.contents toFixed transactions summary));
        simpl; eexists; reflexivity.
    + intros _ Hkey. destruct API_KEY as [apiKey|]; [|reflexivity].
      simpl in Hkey. now rewrite Hkey.
    + intros apiKey e _ -> Hk Hthrow.
      destruct (truthy_string apiKey) eqn:Tk.
      * simpl. now rewrite Hthrow.
      * unfold truthy_string in Tk.
        destruct (String.eqb_spec apiKey ""); [contradiction|discriminate Tk].
Qed.

(** The earlier revision completes normally with a text as well. *)
Lemma getFinancialAdvice_v1_always_text
  (API_KEY : option string)
  (generateContent : string -> string -> string -> Completion (option string))
  (transactions : list Transaction) (summary : Types.Summary num) :
  exists text : string,
    GeminiService.getFinancialAdvice_v1 toFixed API_KEY generateContent
      transactions summary = Normal text.
Proof.
  unfold GeminiService.getFinancialAdvice_v1.
  destruct (List.length transactions =? 0)%nat; [eexists; reflexivity|].
  destruct (generateContent (SupabaseClient.env_or_empty API_KEY) GeminiService.model
              (GeminiService.contents_v1 toFixed transactions summary));
    simpl; eexists; reflexivity.
Qed.

Lemma slice_last_app (n : nat) (older recent : list Transaction) :
  (n <= List.length recent)%nat ->
  slice_last n (older ++ recent)%list = slice_last n recent.
Proof.
  intros Hn. unfold slice_last. rewrite length_app, skipn_app.
  replace (List.length older + List.length recent - n - List.length older)%nat
    with (List.length recent - n)%nat by lia.
  rewrite skipn_all2 by lia. reflexivity.
Qed.

(** C10.  Two non-empty lists of transactions with the same last five
    elements give, with the same summary, the same text of request, and so the
    same answer from the same endpoint. *)
Theorem contents_last_five
  (transactions transactions' : list Transaction) (summary : Types.Summary num) :
  transactions <> [] -> transactions' <> [] ->
  slice_last 5 transactions = slice_last 5 transactions' ->
  GeminiService.contents toFixed transactions summary
  = GeminiService.contents toFixed transactions' summary
  /\ GeminiService.contents_v1 toFixed transactions summary
     = GeminiService.contents_v1 toFixed transactions' summary
  /\ forall API_KEY generateContent,
       GeminiService.getFinancialAdvice toFixed API_KEY generateContent
         transactions summary
       = GeminiService.getFinancialAdvice toFixed API_KEY generateContent
           transactions' summary.
Proof.
  intros Hne Hne' Hlast.
  assert (Hc : GeminiService.contents toFixed transactions summary
               = GeminiService.contents toFixed transactions' summary)
    by (unfold GeminiService.contents; now rewrite Hlast).
  split; [exact Hc|]. split.
  - unfold GeminiService.contents_v1. now rewrite Hlast.
  - intros API_KEY generateContent. unfold GeminiService.getFinancialAdvice.
    rewrite Hc.
    destruct transactions; [contradiction|].
    destruct transactions'; [contradiction|]. reflexivity.
Qed.

(** The entries before the last five never reach the request. *)
Corollary contents_ignores_older
  (older recent : list Transaction) (summary : Types.Summary num) :
  (5 <= List.length recent)%nat ->
  GeminiService.contents toFixed (older ++ recent)%list summary
  = GeminiService.contents toFixed recent summary.
Proof.
  intros Hlen. unfold GeminiService.contents. now rewrite slice_last_app.
Qed.
End AdviceFacts.

Lemma contents_last_five_witness :
  Ledgers.six <> []
  /\ Ledgers.five <> []
  /\ slice_last 5 Ledgers.six = slice_last 5 Ledgers.five
  /\ GeminiService.contents Fixed.toFixed Ledgers.six
       (App.summary Ledgers.six 1000%float)
     = GeminiService.contents Fixed.toFixed Ledgers.five
         (App.summary Ledgers.six 1000%float).
Proof.
  assert (H6 : Ledgers.six <> []) by discriminate.
  assert (H5 : Ledgers.five <> []) by discriminate.
  assert (Hlast : slice_last 5 Ledgers.six = slice_last 5 Ledgers.five)
    by reflexivity.
  refine (conj H6 (conj H5 (conj Hlast _))).
  exact (proj1 (contents_last_five Fixed.toFixed Ledgers.six Ledgers.five
                  (App.summary Ledgers.six 1000%float) H6 H5 Hlast)).
Defined.

(** The lines of the request for the ledger of example 1, on binary64. *)
Example recent_lines_example1 :
  join GeminiService.nl
    (map (GeminiService.recent_line Fixed.toFixed) (slice_last 5 Ledgers.example1))
  = "- 2024-01-05: Beneficio (R$ 500.00 - Entrada)" ++ GeminiService.nl
    ++ "- 2024-01-01: Farmacia (R$ 200.00 - Saída)"
  /\ GeminiService.summary_lines Fixed.toFixed (App.summary Ledgers.example1 1000%float)
     = "        - Saldo Inicial: R$ 1000.00" ++ GeminiService.nl
       ++ "        - Total de Entradas: R$ 500.00" ++ GeminiService.nl
       ++ "        - Total de Saídas: R$ 200.00" ++ GeminiService.nl
       ++ "        - Saldo Final: R$ 1300.00" ++ GeminiService.nl.
Proof. vm_compute. split; reflexivity. Qed.

(** The two totals of the binary64 ledger that differ print the same with two
    decimals, which is all the page shows of them. *)
Example toFixed_hides_the_difference :
  Fixed.toFixed 0.6000000000000001%float 2 = "0.60"
  /\ Fixed.toFixed 0.6%float 2 = "0.60".
Proof. vm_compute. split; reflexivity. Qed.

(** * Further properties of the code *)

(** ** More on the sort *)

Section SortMore.
Context {A : Type}.
Variable comparefn : A -> A -> option Z.
Variable ok : A -> Prop.
Variable key : A -> Z.
Hypothesis comparefn_key :
  forall x y, ok x -> ok y -> comparefn x y = Some (key x - key y).

Lemma Array_sort_sorted_same (l : list A) :
  Forall ok l -> StronglySorted (key_le key) l -> Array_sort comparefn l = l.
Proof.
  intros Hok Hs.
  apply (stable_sort_unique key); [|assumption|].
  - now apply Array_sort_sorted with (ok := ok).
  - intros k. now apply Array_sort_stable with (ok := ok).
Qed.

Lemma StronglySorted_filter_keep (p : A -> bool) (l : list A) :
  StronglySorted (key_le key) l -> StronglySorted (key_le key) (filter p l).
Proof.
  induction 1 as [|x l Hs IH Hx]; simpl; [constructor|].
  destruct (p x); [|assumption].
  constructor; [assumption|].
  apply Forall_forall. intros y Hy. apply filter_In in Hy.
  rewrite Forall_forall in Hx. apply Hx. tauto.
Qed.

Lemma filter_swap (p q : A -> bool) (l : list A) :
  filter p (filter q l) = filter q (filter p l).
Proof.
  induction l as [|x l IH]; simpl; [reflexivity|].
  destruct (p x) eqn:Hp, (q x) eqn:Hq; simpl; rewrite ?Hp, ?Hq, IH; reflexivity.
Qed.

Lemma Array_sort_filter (p : A -> bool) (l : list A) :
  Forall ok l ->
  Array_sort comparefn (filter p l) = filter p (Array_sort comparefn l).
Proof.
  intros Hok.
  assert (Hokp : Forall ok (filter p l)).
  { apply Forall_forall. intros x Hx. apply filter_In in Hx.
    rewrite Forall_forall in Hok. apply Hok. tauto. }
  apply (stable_sort_unique key).
  - now apply Array_sort_sorted with (ok := ok).
  - apply StronglySorted_filter_keep.
    now apply Array_sort_sorted with (ok := ok).
  - intros k.
    rewrite (Array_sort_stable comparefn ok key comparefn_key k _ Hokp).
    rewrite (filter_swap (has_key key k) p (Array_sort comparefn l)).
    rewrite (Array_sort_stable comparefn ok key comparefn_key k _ Hok).
    apply filter_swap.
Qed.

Lemma StronglySorted_snoc (l : list A) (x : A) :
  StronglySorted (key_le key) l -> Forall (fun y => key y <= key x) l ->
  StronglySorted (key_le key) (l ++ [x])%list.
Proof.
  induction 1 as [|y l Hs IH Hy]; intros Hle; simpl.
  - constructor; constructor.
  - inversion Hle; subst. constructor; [now apply IH|].
    apply Forall_app. split; [assumption|]. constructor; [assumption|constructor].
Qed.

Lemma Array_sort_snoc (l : list A) (x : A) :
  Forall ok l -> ok x -> Forall (fun y => key y <= key x) l ->
  Array_sort comparefn (l ++ [x])%list = (Array_sort comparefn l ++ [x])%list.
Proof.
  intros Hok Hx Hle.
  assert (Hokx : Forall ok (l ++ [x])%list).
  { apply Forall_app. split; [assumption|]. constructor; [assumption|constructor]. }
  apply (stable_sort_unique key).
  - now apply Array_sort_sorted with (ok := ok).
  - apply StronglySorted_snoc.
    + now apply Array_sort_sorted with (ok := ok).
    + apply Forall_forall. intros y Hy.
      apply Permutation_in with (1 := Array_sort_perm comparefn l) in Hy.
      rewrite Forall_forall in Hle. now apply Hle.
  - intros k.
    rewrite (Array_sort_stable comparefn ok key comparefn_key k _ Hokx).
    rewrite !filter_app.
    now rewrite (Array_sort_stable comparefn ok key comparefn_key k _ Hok).
Qed.
End SortMore.

(** ** More on the derived view *)

Section ViewMore.
Context {num : Type} `{Number num}.
Variable getTime : string -> option Z.

#[local] Abbreviation Transaction := (Types.Transaction num).
#[local] Abbreviation view := (App.processedTransactions getTime).
#[local] Abbreviation sort := (Array_sort (App.by_date getTime)).

Lemma map_cons_eq {B C : Type} (f : B -> C) (x x' : B) (l l' : list B) :
  map f (x :: l) = map f (x' :: l') -> f x = f x' /\ map f l = map f l'.
Proof. simpl. intros Heq. injection Heq as Hx Hl. now split. Qed.

Lemma running_fields (l : list Transaction) (c : num) :
  map entry_fields (App.running c l) = map entry_fields l.
Proof.
  revert c. induction l as [|t l IH]; intros c; simpl; [reflexivity|].
  now rewrite IH.
Qed.

Lemma running_has_balance (l : list Transaction) (c : num) :
  Forall (fun t => exists b, Types.runningBalance t = Some b) (App.running c l).
Proof.
  revert c. induction l as [|t l IH]; intros c; simpl; constructor.
  - eexists. reflexivity.
  - apply IH.
Qed.

Lemma fields_date (t u : Transaction) :
  entry_fields t = entry_fields u -> Types.date t = Types.date u.
Proof. unfold entry_fields. intros Heq. now injection Heq. Qed.

Lemma fields_by_date (x x' y y' : Transaction) :
  entry_fields x = entry_fields x' -> entry_fields y = entry_fields y' ->
  SortCompare (App.by_date getTime) x y = SortCompare (App.by_date getTime) x' y'.
Proof.
  intros Hx Hy. unfold SortCompare, App.by_date.
  now rewrite (fields_date _ _ Hx), (fields_date _ _ Hy).
Qed.

Lemma insert_fields (x x' : Transaction) (l l' : list Transaction) :
  entry_fields x = entry_fields x' -> map entry_fields l = map entry_fields l' ->
  map entry_fields (insert (App.by_date getTime) x l)
  = map entry_fields (insert (App.by_date getTime) x' l').
Proof.
  intros Hx. revert l'. induction l as [|y l IH]; intros [|y' l'] Hl;
    try discriminate Hl; simpl.
  - now rewrite Hx.
  - apply map_cons_eq in Hl. destruct Hl as [Hy Hl].
    rewrite (fields_by_date x x' y y' Hx Hy).
    destruct (SortCompare (App.by_date getTime) x' y' <=? 0); simpl.
    + now rewrite Hx, Hy, Hl.
    + now rewrite Hy, (IH l' Hl).
Qed.

Lemma sort_fields (l l' : list Transaction) :
  map entry_fields l = map entry_fields l' ->
  map entry_fields (sort l) = map entry_fields (sort l').
Proof.
  revert l'. induction l as [|x l IH]; intros [|x' l'] Hl; try discriminate Hl;
    [reflexivity|].
  apply map_cons_eq in Hl. destruct Hl as [Hx Hl]. simpl.
  apply insert_fields; [assumption|now apply IH].
Qed.

Lemma running_of_fields (l l' : list Transaction) (c : num) :
  map entry_fields l = map entry_fields l' -> App.running c l = App.running c l'.
Proof.
  revert l' c. induction l as [|t l IH]; intros [|t' l'] c Hl; try discriminate Hl;
    [reflexivity|].
  apply map_cons_eq in Hl. destruct Hl as [Ht Hl].
  unfold entry_fields in Ht. injection Ht as Hid Hdate Hdesc Hamount Htype.
  simpl. unfold App.apply_transaction, App.with_runningBalance.
  rewrite Hid, Hdate, Hdesc, Hamount, Htype. f_equal. now apply IH.
Qed.

Lemma view_of_fields (l l' : list Transaction) (b : num) :
  map entry_fields l = map entry_fields l' -> view l b = view l' b.
Proof.
  intros Hl. unfold App.processedTransactions.
  apply running_of_fields. now apply sort_fields.
Qed.

Lemma valid_of_fields (l l' : list Transaction) :
  map entry_fields l = map entry_fields l' ->
  Forall (valid_date getTime) l -> Forall (valid_date getTime) l'.
Proof.
  revert l'. induction l as [|t l IH]; intros [|t' l'] Hl Hv; try discriminate Hl;
    [constructor|].
  apply map_cons_eq in Hl. destruct Hl as [Ht Hl]. inversion Hv; subst. constructor.
  - unfold valid_date in *. now rewrite <- (fields_date _ _ Ht).
  - now apply IH.
Qed.

Lemma running_snoc (l : list Transaction) (t : Transaction) (c : num) :
  App.running c (l ++ [t])%list
  = (App.running c l
     ++ [App.with_runningBalance t
           (App.apply_transaction (fold_left App.apply_transaction l c) t)])%list.
Proof.
  revert c. induction l as [|u l IH]; intros c; simpl; [reflexivity|].
  now rewrite IH.
Qed.

(** X1.  The view holds the entries of the ledger, each once and with its
    fields as they are, whatever the dates are worth, and every row of it has
    a running balance. *)
Theorem processedTransactions_keeps_entries
  (transactions : list Transaction) (initialBalance : num) :
  Permutation (map entry_fields (view transactions initialBalance))
    (map entry_fields transactions)
  /\ Forall (fun t => exists b, Types.runningBalance t = Some b)
       (view transactions initialBalance).
Proof.
  unfold App.processedTransactions. split.
  - rewrite running_fields. apply Permutation_map, Array_sort_perm.
  - apply running_has_balance.
Qed.

(** X2.  When the dates are valid, the view of a view is that view: rows that
    are already in order and already carry a balance come out as they went in
    (the balance a row carries is not read, it is computed anew). *)
Theorem processedTransactions_idempotent
  (transactions : list Transaction) (initialBalance : num) :
  Forall (valid_date getTime) transactions ->
  view (view transactions initialBalance) initialBalance
  = view transactions initialBalance.
Proof.
  intros Hv.
  assert (Hf : map entry_fields (view transactions initialBalance)
               = map entry_fields (sort transactions))
    by apply running_fields.
  rewrite (view_of_fields _ _ initialBalance Hf).
  unfold App.processedTransactions. f_equal.
  apply Array_sort_sorted_same with (ok := valid_date getTime) (key := time_of getTime).
  - intros x y. apply by_date_time.
  - now apply Array_sort_ok.
  - apply Array_sort_sorted with (ok := valid_date getTime); [|assumption].
    intros x y. apply by_date_time.
Qed.

(** X3.  When the dates are valid, an entry appended to the ledger with a
    date no earlier than every other date goes to the end of the view: the
    rows before it are the rows of the view as it was, and its balance is the
    last balance of that view (the starting balance, if there was no row),
    plus its amount for an income and minus its amount for an expense. *)
Theorem processedTransactions_append_latest
  (transactions : list Transaction) (t : Transaction) (initialBalance : num) :
  Forall (valid_date getTime) transactions -> valid_date getTime t ->
  Forall (fun u => time_of getTime u <= time_of getTime t) transactions ->
  view (transactions ++ [t])%list initialBalance
  = (view transactions initialBalance
     ++ [Types.mkTransaction (Types.id t) (Types.date t) (Types.description t)
           (Types.amount t) (Types.type t)
           (Some
              (let previous :=
                 match last_runningBalance (view transactions initialBalance) with
                 | Some b => b
                 | None => initialBalance
                 end in
               match Types.type t with
               | Types.INCOME => add previous (Types.amount t)
               | Types.EXPENSE => sub previous (Types.amount t)
               end))])%list.
Proof.
  intros Hv Ht Hle. unfold App.processedTransactions.
  rewrite (Array_sort_snoc (App.by_date getTime) (valid_date getTime)
             (time_of getTime)); try assumption.
  2: { intros x y. apply by_date_time. }
  rewrite running_snoc. f_equal. unfold App.with_runningBalance. do 3 f_equal.
  assert (Hprev : match last_runningBalance
                          (App.running initialBalance (sort transactions)) with
                  | Some b => b
                  | None => initialBalance
                  end
                  = fold_left App.apply_transaction (sort transactions) initialBalance).
  { destruct (sort transactions) as [|u l] eqn:Hs; [reflexivity|].
    rewrite running_last by discriminate. reflexivity. }
  cbv zeta. rewrite Hprev. unfold App.apply_transaction.
  destruct (Types.type t); reflexivity.
Qed.

(** X4.  When the dates are valid, the order of the view is settled by the
    dates alone: the view is the running balance over any arrangement of the
    entries that is ascending by date and keeps the entries of one date in the
    order the ledger has them. *)
Theorem processedTransactions_order_determined
  (transactions sorted : list Transaction) (initialBalance : num) :
  Forall (valid_date getTime) transactions ->
  StronglySorted (key_le (time_of getTime)) sorted ->
  (forall k, filter (has_key (time_of getTime) k) sorted
             = filter (has_key (time_of getTime) k) transactions) ->
  view transactions initialBalance = App.running initialBalance sorted.
Proof.
  intros Hv Hs Hst. unfold App.processedTransactions. f_equal.
  apply (stable_sort_unique (time_of getTime)); [|assumption|].
  - apply Array_sort_sorted with (ok := valid_date getTime); [|assumption].
    intros x y. apply by_date_time.
  - intros k. rewrite Hst.
    apply Array_sort_stable with (ok := valid_date getTime); [|assumption].
    intros x y. apply by_date_time.
Qed.
End ViewMore.

Lemma example1_valid :
  Forall (valid_date IsoDate.getTime) Ledgers.example1.
Proof. repeat constructor; unfold valid_date; vm_compute; discriminate. Qed.

Lemma processedTransactions_idempotent_witness :
  Forall (valid_date IsoDate.getTime) Ledgers.example1
  /\ App.processedTransactions IsoDate.getTime
       (App.processedTransactions IsoDate.getTime Ledgers.example1 1000%float)
       1000%float
     = App.processedTransactions IsoDate.getTime Ledgers.example1 1000%float.
Proof.
  refine (conj example1_valid _).
  exact (processedTransactions_idempotent IsoDate.getTime Ledgers.example1
           1000%float example1_valid).
Defined.

Lemma processedTransactions_append_latest_witness :
  Forall (valid_date IsoDate.getTime) Ledgers.two_incomes
  /\ valid_date IsoDate.getTime
       (Types.mkTransaction "t1" "2024-01-05" "Beneficio" 500%float Types.INCOME None)
  /\ Forall (fun u => time_of IsoDate.getTime u
                      <= time_of IsoDate.getTime
                           (Types.mkTransaction "t1" "2024-01-05" "Beneficio"
                              500%float Types.INCOME None))
       Ledgers.two_incomes
  /\ map Types.id
       (App.processedTransactions IsoDate.getTime
          (Ledgers.two_incomes
           ++ [Types.mkTransaction "t1" "2024-01-05" "Beneficio" 500%float
                 Types.INCOME None])%list 0.1%float)
     = ["a"; "b"; "t1"].
Proof.
  assert (Hv : Forall (valid_date IsoDate.getTime) Ledgers.two_incomes).
  { repeat constructor; unfold valid_date; vm_compute; discriminate. }
  assert (Ht : valid_date IsoDate.getTime
                 (Types.mkTransaction "t1" "2024-01-05" "Beneficio" 500%float
                    Types.INCOME None)).
  { unfold valid_date; vm_compute; discriminate. }
  assert (Hle : Forall (fun u => time_of IsoDate.getTime u
                                 <= time_of IsoDate.getTime
                                      (Types.mkTransaction "t1" "2024-01-05"
                                         "Beneficio" 500%float Types.INCOME None))
                  Ledgers.two_incomes).
  { repeat constructor; vm_compute; discriminate. }
  refine (conj Hv (conj Ht (conj Hle _))).
  rewrite (processedTransactions_append_latest IsoDate.getTime Ledgers.two_incomes
             _ 0.1%float Hv Ht Hle).
  reflexivity.
Defined.

Lemma processedTransactions_order_determined_witness :
  Forall (valid_date IsoDate.getTime) Ledgers.example1
  /\ StronglySorted (key_le (time_of IsoDate.getTime)) (rev Ledgers.example1)
  /\ (forall k, filter (has_key (time_of IsoDate.getTime) k) (rev Ledgers.example1)
                = filter (has_key (time_of IsoDate.getTime) k) Ledgers.example1)
  /\ App.processedTransactions IsoDate.getTime Ledgers.example1 1000%float
     = App.running 1000%float (rev Ledgers.example1).
Proof.
  assert (Hs : StronglySorted (key_le (time_of IsoDate.getTime)) (rev Ledgers.example1)).
  { repeat constructor. unfold key_le. vm_compute. discriminate. }
  assert (Hst : forall k,
             filter (has_key (time_of IsoDate.getTime) k) (rev Ledgers.example1)
             = filter (has_key (time_of IsoDate.getTime) k) Ledgers.example1).
  { intros k. simpl. unfold has_key.
    change (time_of IsoDate.getTime
              (Types.mkTransaction "t2" "2024-01-01" "Farmacia" 200%float
                 Types.EXPENSE None))
      with 1704067200000.
    change (time_of IsoDate.getTime
              (Types.mkTransaction "t1" "2024-01-05" "Beneficio" 500%float
                 Types.INCOME None))
      with 1704412800000.
    destruct (Z.eqb_spec 1704067200000 k), (Z.eqb_spec 1704412800000 k);
      try reflexivity.
    lia. }
  refine (conj example1_valid (conj Hs (conj Hst _))).
  exact (processedTransactions_order_determined IsoDate.getTime Ledgers.example1
           (rev Ledgers.example1) 1000%float example1_valid Hs Hst).
Defined.

(** ** More on the mutations *)

Section StoreMore.
Context {num : Type} `{Number num}.
Variable parseFloat : string -> num.
Variable getTime : string -> option Z.
Variable isSupabaseConfigured : bool.

#[local] Abbreviation Transaction := (Types.Transaction num).
#[local] Abbreviation State := (App.State num).
#[local] Abbreviation handleAddTransaction :=
  (App.handleAddTransaction parseFloat isSupabaseConfigured).
#[local] Abbreviation deleteTransaction := (App.deleteTransaction isSupabaseConfigured).
#[local] Abbreviation saveEdit := (App.saveEdit isSupabaseConfigured).
#[local] Abbreviation dispatch := (App.dispatch parseFloat isSupabaseConfigured).
#[local] Abbreviation run := (App.run parseFloat isSupabaseConfigured).
#[local] Abbreviation view := (App.processedTransactions getTime).

(** X5.  A second submission right after a first one does nothing: the first
    one either was refused, and the form is as it was, or was accepted, and
    has emptied the description and the amount. *)
Theorem handleAddTransaction_twice (uuid uuid' : string) (error error' : bool) (s : State) :
  handleAddTransaction uuid' error' (fst (handleAddTransaction uuid error s))
  = (fst (handleAddTransaction uuid error s), []).
Proof.
  unfold App.handleAddTransaction.
  destruct (negb (truthy_string (App.description s))
            || negb (truthy_string (App.amount s))
            || leb (parseFloat (App.amount s)) zero) eqn:Hg; simpl.
  - now rewrite Hg.
  - reflexivity.
Qed.

(** X6.  Deleting the identifier just submitted gives back the entries there
    were before the submission, provided no entry had that identifier. *)
Theorem add_then_delete (uuid : string) (error error' : bool) (s : State) :
  ~ In uuid (map Types.id (App.transactions s)) ->
  App.transactions
    (fst (deleteTransaction uuid error' (fst (handleAddTransaction uuid error s))))
  = App.transactions s.
Proof.
  intros Hfresh. unfold App.handleAddTransaction, App.deleteTransaction.
  destruct (negb (truthy_string (App.description s))
            || negb (truthy_string (App.amount s))
            || leb (parseFloat (App.amount s)) zero); simpl.
  - now apply filter_absent.
  - rewrite filter_app, filter_absent by assumption. simpl.
    rewrite String.eqb_refl. simpl. apply app_nil_r.
Qed.

(** X7.  A deletion removes every entry with the given identifier and no
    other entry, and two deletions give the same state in either order. *)
Theorem deleteTransaction_commutes
  (id id' : string) (e1 e2 e3 e4 : bool) (s : State) :
  fst (deleteTransaction id e1 (fst (deleteTransaction id' e2 s)))
  = fst (deleteTransaction id' e3 (fst (deleteTransaction id e4 s)))
  /\ (forall t, In t (App.transactions (fst (deleteTransaction id e1 s)))
                <-> In t (App.transactions s) /\ Types.id t <> id).
Proof.
  split.
  - unfold App.deleteTransaction. destruct s; unfold App.setTransactions; simpl.
    f_equal. apply filter_swap.
  - intros t. unfold App.deleteTransaction. simpl. rewrite filter_In.
    destruct (String.eqb_spec (Types.id t) id); simpl; intuition congruence.
Qed.

Lemma filter_fields (id : string) (l l' : list Transaction) :
  map entry_fields l = map entry_fields l' ->
  map entry_fields (filter (fun t => negb (Types.id t =? id)%string) l)
  = map entry_fields (filter (fun t => negb (Types.id t =? id)%string) l').
Proof.
  revert l'. induction l as [|t l IH]; intros [|t' l'] Hl; try discriminate Hl;
    [reflexivity|].
  apply map_cons_eq in Hl. destruct Hl as [Ht Hl]. simpl.
  assert (Hid : Types.id t = Types.id t')
    by (unfold entry_fields in Ht; now injection Ht).
  rewrite Hid. destruct (negb (Types.id t' =? id)%string); simpl.
  - now rewrite Ht, (IH l' Hl).
  - now apply IH.
Qed.

(** X8.  When the dates are valid, deleting an entry takes its row out of the
    view and leaves the other rows in the order they were in (their balances
    are computed anew). *)
Theorem deleteTransaction_view (id : string) (error : bool) (s : State) (b : num) :
  Forall (valid_date getTime) (App.transactions s) ->
  map entry_fields (view (App.transactions (fst (deleteTransaction id error s))) b)
  = map entry_fields
      (filter (fun t => negb (Types.id t =? id)%string) (view (App.transactions s) b)).
Proof.
  intros Hv. unfold App.deleteTransaction, App.processedTransactions. simpl.
  rewrite running_fields.
  rewrite (Array_sort_filter (App.by_date getTime) (valid_date getTime)
             (time_of getTime)); [|intros x y; apply by_date_time|assumption].
  apply filter_fields. symmetry. apply running_fields.
Qed.

Lemma dispatch_not_mutating (a : App.Action) (s : State) :
  App.mutates a = false ->
  App.transactions (fst (dispatch a s)) = App.transactions s
  /\ snd (dispatch a s) = [].
Proof. destruct a; simpl; intros Hm; try discriminate Hm; now split. Qed.

(** X9.  A session made of anything but submissions, deletions and saved
    edits leaves the entries as they are: what is typed in the form or in the
    open row does not reach the ledger. *)
Theorem run_not_mutating (actions : list App.Action) (s : State) :
  Forall (fun a => App.mutates a = false) actions ->
  App.transactions (run actions s) = App.transactions s.
Proof.
  intros Hm. revert s. induction Hm as [|a actions Ha _ IH]; intros s;
    [reflexivity|].
  unfold App.run. simpl. fold (run actions (fst (dispatch a s))).
  rewrite IH. now apply dispatch_not_mutating.
Qed.

Lemma run_edits (actions : list App.Action) (s : State) :
  Forall (fun a => is_edit a = true) actions ->
  exists form, run actions s = App.setEditForm form s.
Proof.
  intros He. revert s. induction He as [|a actions Ha _ IH]; intros s.
  - exists (App.editForm s). destruct s; reflexivity.
  - unfold App.run. simpl. fold (run actions (fst (dispatch a s))).
    destruct (IH (fst (dispatch a s))) as [form ->].
    exists form. destruct a; simpl in *; try discriminate Ha; reflexivity.
Qed.

(** X10.  Cancelling discards the edits: from a state with no row open,
    opening a row, changing its fields as often as one likes and cancelling
    gives back the very state one started from. *)
Theorem cancelEditing_discards
  (transaction : Transaction) (actions : list App.Action) (s : State) :
  App.editingId s = None -> App.editForm s = None ->
  Forall (fun a => is_edit a = true) actions ->
  App.cancelEditing (run actions (App.startEditing transaction s)) = s.
Proof.
  intros Hi Hf He.
  destruct (run_edits actions (App.startEditing transaction s) He) as [form ->].
  destruct s; simpl in *. subst. reflexivity.
Qed.
End StoreMore.

(** ** The summary and the mutations *)

Section SummaryMore.
Context {num : Type} `{Number num}.
Variable parseFloat : string -> num.
Variable getTime : string -> option Z.
Variable isSupabaseConfigured : bool.

#[local] Abbreviation Transaction := (Types.Transaction num).
#[local] Abbreviation State := (App.State num).
#[local] Abbreviation handleAddTransaction :=
  (App.handleAddTransaction parseFloat isSupabaseConfigured).
#[local] Abbreviation saveEdit := (App.saveEdit isSupabaseConfigured).
#[local] Abbreviation view := (App.processedTransactions getTime).

Lemma sum_amounts_snoc (l : list Transaction) (t : Transaction) :
  App.sum_amounts (l ++ [t])%list = add (App.sum_amounts l) (Types.amount t).
Proof. unfold App.sum_amounts. now rewrite fold_left_app. Qed.

Lemma handleAddTransaction_accepted (uuid : string) (error : bool) (s : State) :
  App.description s <> "" -> App.amount s <> "" ->
  leb (parseFloat (App.amount s)) zero = false ->
  App.transactions (fst (handleAddTransaction uuid error s))
  = (App.transactions s
     ++ [Types.mkTransaction uuid (App.date s) (App.description s)
           (parseFloat (App.amount s)) (App.type s) None])%list.
Proof.
  intros Hd Ha Hl. unfold App.handleAddTransaction.
  destruct (truthy_string (App.description s)) eqn:Td;
    [|apply truthy_string_false in Td; contradiction].
  destruct (truthy_string (App.amount s)) eqn:Ta;
    [|apply truthy_string_false in Ta; contradiction].
  rewrite Hl. reflexivity.
Qed.

(** X11.  An accepted submission adds the amount to the total of its type, on
    the right of the sum there was, and leaves the other total as it is: this
    holds on any numbers, binary64 included. *)
Theorem handleAddTransaction_totals (uuid : string) (error : bool) (s : State) (b : num) :
  App.description s <> "" -> App.amount s <> "" ->
  leb (parseFloat (App.amount s)) zero = false ->
  match App.type s with
  | Types.INCOME =>
      Types.totalIncome
        (App.summary (App.transactions (fst (handleAddTransaction uuid error s))) b)
      = add (Types.totalIncome (App.summary (App.transactions s) b))
          (parseFloat (App.amount s))
      /\ Types.totalExpenses
           (App.summary (App.transactions (fst (handleAddTransaction uuid error s))) b)
         = Types.totalExpenses (App.summary (App.transactions s) b)
  | Types.EXPENSE =>
      Types.totalExpenses
        (App.summary (App.transactions (fst (handleAddTransaction uuid error s))) b)
      = add (Types.totalExpenses (App.summary (App.transactions s) b))
          (parseFloat (App.amount s))
      /\ Types.totalIncome
           (App.summary (App.transactions (fst (handleAddTransaction uuid error s))) b)
         = Types.totalIncome (App.summary (App.transactions s) b)
  end.
Proof.
  intros Hd Ha Hl.
  rewrite (handleAddTransaction_accepted uuid error s Hd Ha Hl).
  unfold App.summary. simpl. rewrite !filter_app. simpl.
  unfold App.is_type at 2 4. simpl.
  destruct (App.type s); simpl.
  - rewrite sum_amounts_snoc, app_nil_r. now split.
  - rewrite sum_amounts_snoc, app_nil_r. now split.
Qed.
End SummaryMore.

(** ** Saving an edit *)

Section EditMore.
Context {num : Type} `{Number num}.
Variable getTime : string -> option Z.
Variable isSupabaseConfigured : bool.

#[local] Abbreviation Transaction := (Types.Transaction num).
#[local] Abbreviation State := (App.State num).
#[local] Abbreviation saveEdit := (App.saveEdit isSupabaseConfigured).
#[local] Abbreviation view := (App.processedTransactions getTime).

Lemma fold_filter_same_money
  (ty : Types.TransactionType) (f : Transaction -> Transaction)
  (l : list Transaction) (acc : num) :
  (forall t, In t l -> same_money (f t) t) ->
  fold_left (fun a t => add a (Types.amount t)) (filter (App.is_type ty) (map f l)) acc
  = fold_left (fun a t => add a (Types.amount t)) (filter (App.is_type ty) l) acc.
Proof.
  revert acc. induction l as [|t l IH]; intros acc Hm; [reflexivity|].
  destruct (Hm t (or_introl eq_refl)) as [Ha Hty].
  assert (Hl : forall u, In u l -> same_money (f u) u)
    by (intros u Hu; apply Hm; now right).
  assert (Hp : App.is_type ty (f t) = App.is_type ty t)
    by (unfold App.is_type; now rewrite Hty).
  cbn [map filter]. rewrite Hp.
  destruct (App.is_type ty t); cbn [fold_left].
  - rewrite Ha. now apply IH.
  - now apply IH.
Qed.

Lemma summary_map_same_money
  (f : Transaction -> Transaction) (l : list Transaction) (b : num) :
  (forall t, In t l -> same_money (f t) t) ->
  App.summary (map f l) b = App.summary l b.
Proof.
  intros Hm. unfold App.summary, App.sum_amounts.
  now rewrite !fold_filter_same_money.
Qed.

(** X12.  Saving an edit that changes neither the amount nor the type of the
    entries it replaces (their date or description at most) leaves the summary
    as it was, on any numbers. *)
Theorem saveEdit_keeps_summary (error : bool) (s : State) (b : num) :
  (forall form eid t,
     App.editForm s = Some form -> App.editingId s = Some eid ->
     In t (App.transactions s) -> Types.id t = eid -> same_money form t) ->
  App.summary (App.transactions (fst (saveEdit error s))) b
  = App.summary (App.transactions s) b.
Proof.
  intros Hm. unfold App.saveEdit.
  destruct (App.editForm s) as [form|] eqn:Hf; [|reflexivity].
  destruct (App.editingId s) as [eid|] eqn:He; [|reflexivity].
  destruct (negb (truthy_string eid)); [reflexivity|].
  destruct (isSupabaseConfigured && error); [reflexivity|].
  simpl. apply summary_map_same_money. intros t Ht.
  destruct (String.eqb_spec (Types.id t) eid) as [Hid|Hid].
  - now apply (Hm form eid t).
  - split; reflexivity.
Qed.

Lemma same_id_same_entry (l : list Transaction) (t u : Transaction) :
  NoDup (map Types.id l) -> In t l -> In u l -> Types.id u = Types.id t -> u = t.
Proof.
  induction l as [|x l IH]; intros Hnd Ht Hu Hid; [contradiction|].
  inversion Hnd as [|? ? Hx Hnd']; subst.
  destruct Ht as [->|Ht], Hu as [->|Hu]; try reflexivity.
  - exfalso. apply Hx. rewrite <- Hid. now apply in_map.
  - exfalso. apply Hx. rewrite Hid. now apply in_map.
  - now apply IH.
Qed.

(** X13.  Opening a row of the view and saving it as it is changes neither
    the view nor the summary, whatever the remote store answers, when the
    identifiers are pairwise distinct; yet, when the save goes through, the
    entry that is stored from then on is the row with the balance it was shown
    with. *)
Theorem saveEdit_unchanged_row
  (error : bool) (s : State) (t : Transaction) (c b : num) :
  App.distinct_ids (App.transactions s) -> In t (App.transactions s) ->
  view (App.transactions
          (fst (saveEdit error (App.startEditing (App.with_runningBalance t c) s)))) b
  = view (App.transactions s) b
  /\ App.summary
       (App.transactions
          (fst (saveEdit error (App.startEditing (App.with_runningBalance t c) s)))) b
     = App.summary (App.transactions s) b
  /\ (isSupabaseConfigured && error = false -> Types.id t <> "" ->
      In (App.with_runningBalance t c)
        (App.transactions
           (fst (saveEdit error (App.startEditing (App.with_runningBalance t c) s))))).
Proof.
  intros Hnd Hin. unfold App.saveEdit. simpl.
  destruct (truthy_string (Types.id t)) eqn:Tid; simpl.
  2: { repeat split. intros _ Hne.
       unfold truthy_string in Tid.
       destruct (String.eqb_spec (Types.id t) ""); [contradiction|discriminate Tid]. }
  destruct (isSupabaseConfigured && error); simpl.
  { repeat split. intros Hc. discriminate Hc. }
  assert (Hfields :
    map entry_fields
      (map (fun u => if (Types.id u =? Types.id t)%string
                     then App.with_runningBalance t c else u) (App.transactions s))
    = map entry_fields (App.transactions s)).
  { rewrite map_map. apply map_ext_in. intros u Hu.
    destruct (String.eqb_spec (Types.id u) (Types.id t)) as [Hid|Hid]; [|reflexivity].
    rewrite (same_id_same_entry _ t u Hnd Hin Hu Hid). reflexivity. }
  split; [|split].
  - now apply view_of_fields.
  - apply summary_map_same_money. intros u Hu.
    destruct (String.eqb_spec (Types.id u) (Types.id t)) as [Hid|Hid].
    + rewrite (same_id_same_entry _ t u Hnd Hin Hu Hid). split; reflexivity.
    + split; reflexivity.
  - intros _ _. apply in_map_iff. exists t. split; [|assumption].
    now rewrite String.eqb_refl.
Qed.
End EditMore.

(** ** Numbers typed in, and loading *)

Section LoadMore.
Context {num : Type} `{Number num}.
Variable parseFloat : string -> num.
Variable isSupabaseConfigured : bool.

#[local] Abbreviation Transaction := (Types.Transaction num).
#[local] Abbreviation State := (App.State num).
#[local] Abbreviation dispatch := (App.dispatch parseFloat isSupabaseConfigured).
#[local] Abbreviation loadData := (App.loadData isSupabaseConfigured).

Lemma number_or_zero_self (v : string) :
  eqb zero zero = true ->
  eqb (App.number_or_zero parseFloat v) (App.number_or_zero parseFloat v) = true.
Proof.
  intros Hz. unfold App.number_or_zero, truthy_number.
  destruct (eqb (parseFloat v) (parseFloat v)) eqn:He; simpl; [|exact Hz].
  destruct (eqb (parseFloat v) zero); simpl; [exact Hz|exact He].
Qed.

(** X15.  Where [0 === 0], as on binary64, no text typed into the field of the
    starting balance or into the amount of the open row stores a number that
    is not equal to itself (NaN): what does not read as a number gives 0. *)
Theorem typed_numbers_not_nan (v : string) (s : State) :
  eqb zero zero = true ->
  eqb (App.initialBalance (fst (dispatch (App.ChangeInitialBalance v) s)))
      (App.initialBalance (fst (dispatch (App.ChangeInitialBalance v) s))) = true
  /\ (forall form,
        App.editForm (fst (dispatch (App.EditAmount v) s)) = Some form ->
        eqb (Types.amount form) (Types.amount form) = true).
Proof.
  intros Hz. split.
  - simpl. now apply number_or_zero_self.
  - intros form. simpl. destruct (App.editForm s); simpl; intros Hf;
      [|discriminate Hf].
    injection Hf as <-. simpl. now apply number_or_zero_self.
Qed.

(** X16.  [loadData] always ends with [isLoading] false.  When the remote store
    is configured and answers a list without an error, the entries are that
    list, even an empty one, and neither the entries nor the starting balance
    of the local snapshot are read.  Otherwise, when the snapshot parses, the
    entries are its [trans] (none if missing) and the starting balance its
    [initial] (0 if missing, zero or NaN); when there is no snapshot, or it
    does not parse, entries and starting balance stay as they were. *)
Theorem loadData_sources
  (remote : Completion (option (list Transaction) * bool))
  (saved : option (Completion (option num * option (list Transaction))))
  (s : State) :
  App.isLoading (fst (loadData remote saved s)) = false
  /\ (forall trans, isSupabaseConfigured = true -> remote = Normal (Some trans, false) ->
      App.transactions (fst (loadData remote saved s)) = trans
      /\ App.initialBalance (fst (loadData remote saved s)) = App.initialBalance s)
  /\ ((isSupabaseConfigured = false
       \/ (forall trans, remote <> Normal (Some trans, false))) ->
      match saved with
      | Some (Normal (initial, trans)) =>
          App.transactions (fst (loadData remote saved s))
          = match trans with Some l => l | None => [] end
          /\ App.initialBalance (fst (loadData remote saved s))
             = match initial with
               | Some v => if truthy_number v then v else zero
               | None => zero
               end
      | _ =>
          App.transactions (fst (loadData remote saved s)) = App.transactions s
          /\ App.initialBalance (fst (loadData remote saved s)) = App.initialBalance s
      end).
Proof.
  unfold App.loadData. split; [|split].
  - destruct isSupabaseConfigured; [destruct remote as [[[trans|] [|]]|e]|];
      destruct saved as [[[initial trans']|e']|]; reflexivity.
  - intros trans -> ->. now split.
  - intros Hfall.
    assert (Hlocal :
      (if isSupabaseConfigured
       then match remote with
            | Normal (Some trans, false) =>
                (App.setTransactions trans (App.setIsLoading true s), true, [])
            | Normal _ => (App.setIsLoading true s, false, [])
            | Throw e =>
                (App.setIsLoading true s, false,
                 [App.console_error "Erro ao carregar do Supabase:"])
            end
       else (App.setIsLoading true s, false, []))
      = (App.setIsLoading true s, false,
         if isSupabaseConfigured
         then match remote with
              | Throw e => [App.console_error "Erro ao carregar do Supabase:"]
              | _ => []
              end
         else [])).
    { destruct isSupabaseConfigured; [|reflexivity].
      destruct Hfall as [Hc|Hr]; [discriminate Hc|].
      destruct remote as [[[trans|] [|]]|e]; try reflexivity.
      exfalso. now apply (Hr trans). }
    rewrite Hlocal.
    destruct saved as [[[initial trans']|e']|]; simpl; now split.
Qed.
End LoadMore.

(** ** The remote store's configuration *)

(** X17.  The remote store counts as configured exactly when both settings
    are present, the address starts with [http] and the key is not empty; a
    missing setting never makes it configured; and whatever this revision
    takes as configured, the earlier revision did too. *)
Theorem isSupabaseConfigured_settings (SUPABASE_URL SUPABASE_ANON_KEY : option string) :
  (SupabaseClient.isSupabaseConfigured SUPABASE_URL SUPABASE_ANON_KEY = true
   <-> exists url key,
         SUPABASE_URL = Some url /\ SUPABASE_ANON_KEY = Some key
         /\ String.prefix "http" url = true /\ key <> "")
  /\ (SUPABASE_URL = None \/ SUPABASE_ANON_KEY = None ->
      SupabaseClient.isSupabaseConfigured SUPABASE_URL SUPABASE_ANON_KEY = false)
  /\ (SupabaseClient.isSupabaseConfigured SUPABASE_URL SUPABASE_ANON_KEY = true ->
      SupabaseClient.isSupabaseConfigured_v1 SUPABASE_URL SUPABASE_ANON_KEY = true).
Proof.
  unfold SupabaseClient.isSupabaseConfigured, SupabaseClient.isSupabaseConfigured_v1,
    SupabaseClient.isValidUrl, truthy_string.
  split; [|split].
  - split.
    + intros Hc. apply andb_true_iff in Hc. destruct Hc as [Hu Hk].
      destruct SUPABASE_URL as [url|]; [|discriminate Hu].
      destruct SUPABASE_ANON_KEY as [key|]; [|discriminate Hk].
      exists url, key. simpl in *. repeat split; try assumption.
      intros ->. discriminate Hk.
    + intros (url & key & -> & -> & Hp & Hk). simpl. rewrite Hp. simpl.
      destruct (String.eqb_spec key ""); [contradiction|reflexivity].
  - intros [->| ->]; simpl; [reflexivity|apply andb_false_r].
  - intros Hc. apply andb_true_iff in Hc. destruct Hc as [Hu Hk].
    rewrite Hk, andb_true_r.
    destruct (String.eqb_spec (SupabaseClient.env_or_empty SUPABASE_URL) "")
      as [He|]; [|reflexivity].
    rewrite He in Hu. discriminate Hu.
Qed.

(** ** More on the advice request *)

Section AdviceMore.
Context {num : Type}.
Variable toFixed : num -> nat -> string.

#[local] Abbreviation Transaction := (Types.Transaction num).

(** X18.  With entries and a key, when the endpoint answers, the advice is the
    text of the answer as it is if it is not empty, and the sentence saying
    no advice could be made when the answer has no text or an empty one. *)
Theorem getFinancialAdvice_answer
  (API_KEY : option string)
  (generateContent : string -> string -> string -> Completion (option string))
  (transactions : list Transaction) (summary : Types.Summary num)
  (apiKey : string) (answer : option string) :
  transactions <> [] -> API_KEY = Some apiKey -> apiKey <> "" ->
  generateContent apiKey "gemini-3-flash-preview"
    (GeminiService.contents toFixed transactions summary) = Normal answer ->
  (forall text, answer = Some text -> text <> "" ->
   GeminiService.getFinancialAdvice toFixed API_KEY generateContent
     transactions summary = Normal text)
  /\ (answer = None \/ answer = Some "" ->
      GeminiService.getFinancialAdvice toFixed API_KEY generateContent
        transactions summary = Normal GeminiService.no_text_text).
Proof.
  intros Hne -> Hk Hg. unfold GeminiService.getFinancialAdvice.
  destruct transactions as [|t l]; [contradiction|]. simpl List.length. cbn [Nat.eqb].
  assert (Tk : truthy_string apiKey = true).
  { unfold truthy_string. destruct (String.eqb_spec apiKey ""); [contradiction|reflexivity]. }
  rewrite Tk. cbn [negb]. unfold GeminiService.model. rewrite Hg. simpl.
  split.
  - intros text -> Ht. simpl. unfold truthy_string.
    destruct (String.eqb_spec text ""); [contradiction|reflexivity].
  - intros [->| ->]; reflexivity.
Qed.

End AdviceMore.

(** ** The further properties at work *)

Lemma example1_distinct :
  App.distinct_ids Ledgers.example1.
Proof.
  unfold App.distinct_ids. simpl. repeat constructor; simpl.
  - intros [Hin|[]]; discriminate Hin.
  - intros [].
Qed.

Lemma add_then_delete_witness :
  ~ In "t3" (map Types.id (App.transactions Scenarios.no_date_form))
  /\ App.transactions
       (fst (App.deleteTransaction true "t3" false
               (fst (App.handleAddTransaction DecimalLiteral.parseFloat true "t3" false
                       Scenarios.no_date_form))))
     = App.transactions Scenarios.no_date_form.
Proof.
  assert (Hfresh : ~ In "t3" (map Types.id (App.transactions Scenarios.no_date_form)))
    by (simpl; intros []).
  refine (conj Hfresh _).
  exact (add_then_delete DecimalLiteral.parseFloat true "t3" false false
           Scenarios.no_date_form Hfresh).
Defined.

Lemma deleteTransaction_view_witness :
  Forall (valid_date IsoDate.getTime) (App.transactions Scenarios.editing)
  /\ map entry_fields
       (App.processedTransactions IsoDate.getTime
          (App.transactions (fst (App.deleteTransaction true "t2" false Scenarios.editing)))
          1000%float)
     = map entry_fields
         (filter (fun t => negb (Types.id t =? "t2")%string)
            (App.processedTransactions IsoDate.getTime
               (App.transactions Scenarios.editing) 1000%float)).
Proof.
  refine (conj example1_valid _).
  exact (deleteTransaction_view IsoDate.getTime true "t2" false Scenarios.editing
           1000%float example1_valid).
Defined.

Lemma run_not_mutating_witness :
  Forall (fun a : App.Action (num := float) => App.mutates a = false)
    [App.ChangeDescription "Luz"; App.EditDate "2024-02-01"; App.CancelEditing]
  /\ App.transactions
       (App.run DecimalLiteral.parseFloat true
          [App.ChangeDescription "Luz"; App.EditDate "2024-02-01"; App.CancelEditing]
          Scenarios.editing)
     = App.transactions Scenarios.editing.
Proof.
  assert (Hm : Forall (fun a : App.Action (num := float) => App.mutates a = false)
                 [App.ChangeDescription "Luz"; App.EditDate "2024-02-01";
                  App.CancelEditing])
    by (repeat constructor).
  refine (conj Hm _).
  exact (run_not_mutating DecimalLiteral.parseFloat true _ Scenarios.editing Hm).
Defined.

Lemma cancelEditing_discards_witness :
  App.editingId Scenarios.start = None
  /\ App.editForm Scenarios.start = None
  /\ Forall (fun a : App.Action (num := float) => is_edit a = true)
       [App.EditDate "2024-02-01"; App.EditAmount "12"]
  /\ App.cancelEditing
       (App.run DecimalLiteral.parseFloat true
          [App.EditDate "2024-02-01"; App.EditAmount "12"]
          (App.startEditing Scenarios.edited_row Scenarios.start))
     = Scenarios.start.
Proof.
  assert (He : Forall (fun a : App.Action (num := float) => is_edit a = true)
                 [App.EditDate "2024-02-01"; App.EditAmount "12"])
    by (repeat constructor).
  refine (conj eq_refl (conj eq_refl (conj He _))).
  exact (cancelEditing_discards DecimalLiteral.parseFloat true Scenarios.edited_row
           _ Scenarios.start eq_refl eq_refl He).
Defined.

Lemma handleAddTransaction_totals_witness :
  App.description Scenarios.no_date_form <> ""
  /\ App.amount Scenarios.no_date_form <> ""
  /\ leb (DecimalLiteral.parseFloat (App.amount Scenarios.no_date_form)) zero = false
  /\ Types.totalExpenses
       (App.summary
          (App.transactions
             (fst (App.handleAddTransaction DecimalLiteral.parseFloat true "t3" false
                     Scenarios.no_date_form))) 0%float)
     = add (Types.totalExpenses
              (App.summary (App.transactions Scenarios.no_date_form) 0%float))
         (DecimalLiteral.parseFloat (App.amount Scenarios.no_date_form)).
Proof.
  assert (Hd : App.description Scenarios.no_date_form <> "") by discriminate.
  assert (Ha : App.amount Scenarios.no_date_form <> "") by discriminate.
  assert (Hl : leb (DecimalLiteral.parseFloat (App.amount Scenarios.no_date_form)) zero
               = false) by reflexivity.
  refine (conj Hd (conj Ha (conj Hl _))).
  exact (proj1 (handleAddTransaction_totals DecimalLiteral.parseFloat true "t3" false
                  Scenarios.no_date_form 0%float Hd Ha Hl)).
Defined.

Lemma saveEdit_keeps_summary_witness :
  (forall form eid t,
     App.editForm Scenarios.renaming = Some form ->
     App.editingId Scenarios.renaming = Some eid ->
     In t (App.transactions Scenarios.renaming) -> Types.id t = eid ->
     same_money form t)
  /\ App.summary (App.transactions (fst (App.saveEdit true false Scenarios.renaming)))
       1000%float
     = App.summary (App.transactions Scenarios.renaming) 1000%float.
Proof.
  assert (Hm : forall form eid t,
             App.editForm Scenarios.renaming = Some form ->
             App.editingId Scenarios.renaming = Some eid ->
             In t (App.transactions Scenarios.renaming) -> Types.id t = eid ->
             same_money form t).
  { intros form eid t Hf He Ht Hid. simpl in Hf, He.
    injection Hf as <-. injection He as <-.
    destruct Ht as [<-|[<-|[]]]; [discriminate Hid|]. split; reflexivity. }
  refine (conj Hm _).
  exact (saveEdit_keeps_summary true false Scenarios.renaming 1000%float Hm).
Defined.

Lemma saveEdit_unchanged_row_witness :
  App.distinct_ids (App.transactions Scenarios.editing)
  /\ In (Types.mkTransaction "t2" "2024-01-01" "Farmacia" 200%float Types.EXPENSE None)
       (App.transactions Scenarios.editing)
  /\ App.processedTransactions IsoDate.getTime
       (App.transactions
          (fst (App.saveEdit true false
                  (App.startEditing
                     (App.with_runningBalance
                        (Types.mkTransaction "t2" "2024-01-01" "Farmacia" 200%float
                           Types.EXPENSE None) 800%float)
                     Scenarios.editing)))) 1000%float
     = App.processedTransactions IsoDate.getTime (App.transactions Scenarios.editing)
         1000%float.
Proof.
  assert (Hin : In (Types.mkTransaction "t2" "2024-01-01" "Farmacia" 200%float
                      Types.EXPENSE None) (App.transactions Scenarios.editing))
    by (simpl; auto).
  refine (conj example1_distinct (conj Hin _)).
  exact (proj1 (saveEdit_unchanged_row IsoDate.getTime true false Scenarios.editing
                  _ 800%float 1000%float example1_distinct Hin)).
Defined.

Lemma reachable_distinct_ids_witness :
  App.distinct_ids (App.transactions Scenarios.start)
  /\ App.editingId Scenarios.start = None
  /\ App.reachable DecimalLiteral.parseFloat true Scenarios.start
       (fst (App.dispatch DecimalLiteral.parseFloat true (App.Submit "a" false)
               (fst (App.dispatch DecimalLiteral.parseFloat true
                       (App.ChangeAmount "0.2")
                       (fst (App.dispatch DecimalLiteral.parseFloat true
                               (App.ChangeDescription "Venda") Scenarios.start))))))
  /\ App.distinct_ids
       (App.transactions
          (fst (App.dispatch DecimalLiteral.parseFloat true (App.Submit "a" false)
                  (fst (App.dispatch DecimalLiteral.parseFloat true
                          (App.ChangeAmount "0.2")
                          (fst (App.dispatch DecimalLiteral.parseFloat true
                                  (App.ChangeDescription "Venda") Scenarios.start)))))))
  /\ App.edit_consistent
       (fst (App.dispatch DecimalLiteral.parseFloat true (App.Submit "a" false)
               (fst (App.dispatch DecimalLiteral.parseFloat true
                       (App.ChangeAmount "0.2")
                       (fst (App.dispatch DecimalLiteral.parseFloat true
                               (App.ChangeDescription "Venda") Scenarios.start)))))).
Proof.
  assert (Hnd : App.distinct_ids (App.transactions Scenarios.start)) by constructor.
  assert (Hr : App.reachable DecimalLiteral.parseFloat true Scenarios.start
                 (fst (App.dispatch DecimalLiteral.parseFloat true (App.Submit "a" false)
                         (fst (App.dispatch DecimalLiteral.parseFloat true
                                 (App.ChangeAmount "0.2")
                                 (fst (App.dispatch DecimalLiteral.parseFloat true
                                         (App.ChangeDescription "Venda")
                                         Scenarios.start))))))).
  { apply App.reachable_step; [apply App.reachable_step;
      [apply App.reachable_step; [apply App.reachable_start|exact I]|exact I]|].
    simpl. intros []. }
  refine (conj Hnd (conj eq_refl (conj Hr _))).
  exact (reachable_distinct_ids DecimalLiteral.parseFloat true Scenarios.start _
           Hnd eq_refl Hr).
Defined.

Lemma typed_numbers_not_nan_witness :
  eqb (zero : float) zero = true
  /\ eqb (App.initialBalance
            (fst (App.dispatch DecimalLiteral.parseFloat true
                    (App.ChangeInitialBalance "abc") Scenarios.start)))
         (App.initialBalance
            (fst (App.dispatch DecimalLiteral.parseFloat true
                    (App.ChangeInitialBalance "abc") Scenarios.start))) = true.
Proof.
  refine (conj eq_refl _).
  exact (proj1 (typed_numbers_not_nan DecimalLiteral.parseFloat true "abc"
                  Scenarios.start eq_refl)).
Defined.

Lemma getFinancialAdvice_answer_witness :
  Ledgers.example1 <> []
  /\ "chave" <> ""
  /\ GeminiService.getFinancialAdvice Fixed.toFixed (Some "chave") Scenarios.answering
       Ledgers.example1 (App.summary Ledgers.example1 1000%float)
     = Normal "Poupe um pouco todo mes.".
Proof.
  assert (Hne : Ledgers.example1 <> []) by discriminate.
  assert (Hk : "chave" <> "") by discriminate.
  refine (conj Hne (conj Hk _)).
  refine (proj1 (getFinancialAdvice_answer Fixed.toFixed (Some "chave")
                   Scenarios.answering Ledgers.example1
                   (App.summary Ledgers.example1 1000%float) "chave"
                   (Some "Poupe um pouco todo mes.") Hne eq_refl Hk eq_refl)
            "Poupe um pouco todo mes." eq_refl _).
  discriminate.
Defined.
